(** * go-mlflow: the Experiment entity, its tag list and the REST client

    A shallow embedding of the entity source (Tag, Tags, Experiment and
    their methods) and of [client.go] (CreateExperiment, GetExperiment,
    DeleteExperiment with their functional options).

    Go values are modelled as the program has them:
    - a slice is a header (pointer, len, cap) over a backing array that
      lives in a store; two headers with the same pointer alias;
    - a nil slice and an empty, allocated slice are different headers;
    - [int64] is a [Z] with its wrap-around written out;
    - a method with a pointer receiver passes the pointee in and out;
    - the client operations run in a state-and-error monad whose state
      holds the caller's Experiment, the client, the store and the
      trace of requests handed to the HTTP transport. *)

From Stdlib Require Import ZArith Lia.
From stdpp Require Import base decidable option list strings.

(** ** Runtime and library behaviour the repository relies on

    Everything here belongs to the Go runtime or its standard library,
    not to the repository. Nothing is assumed about these functions. *)

Record URL := mkURL {
  Scheme : string;
  Host : string;
  Path : string;
  RawQuery : string
}.

Definition with_Path (p : string) (u : URL) : URL :=
  mkURL (Scheme u) (Host u) p (RawQuery u).

Definition with_RawQuery (q : string) (u : URL) : URL :=
  mkURL (Scheme u) (Host u) (Path u) q.

(** [type Tag struct { Key, Value string }]. *)
Record Tag := mkTag { Key : string; Value : string }.

#[export] Instance Tag_eq_dec : EqDecision Tag.
Proof. solve_decision. Defined.

(** The experiment as it comes out of [encoding/json]: the tag array is
    absent ([None], a nil slice after decoding) or a sequence. *)
Record DecodedExperiment := mkDecoded {
  d_ExperimentID : string;
  d_Name : string;
  d_ArtifactLocation : string;
  d_CreationTime : Z;
  d_LastUpdatedTime : Z;
  d_LifecycleStage : string;
  d_Tags : option (list Tag)
}.

Inductive Method := MethodGet | MethodPost.

(** What [json.Encoder.Encode] is given: the anonymous request structs
    of client.go, with the tags read out of the store at that moment. *)
Inductive Payload :=
| NoPayload
| CreatePayload (name artifact_location : string) (tags : list Tag)
| DeletePayload (experiment_id : string).

Record Request := mkRequest {
  ReqMethod : Method;
  ReqURL : URL;
  Header : list (string * string);
  ReqBody : Payload
}.

(** A response; [Body = None] is a body whose read fails. *)
Record Response := mkResponse { StatusCode : Z; Body : option string }.

(** [http.Client.Do] as an oracle: from the requests already sent
    and the new one to a response, or [None] for a transport error. *)
Definition Transport : Type := list Request -> Request -> option Response.

Class Runtime := {
  (** [growslice]: the surplus capacity the runtime adds when [append]
      has to reallocate, from the old capacity and the needed length. *)
  extra_cap : nat -> nat -> nat;
  (** [url.Parse] and the [String] method of a URL. *)
  url_Parse : string -> option URL;
  URL_String : URL -> string;
  (** [path.Join] of two elements. *)
  path_Join : string -> string -> string;
  (** [u.Query()], [q.Set(k, v)], [q.Encode()] on a raw query. *)
  query_Set : string -> string -> string -> string;
  (** [json.Decoder.Decode] into [struct{ExperimentID string}]. *)
  decode_created : string -> option string;
  (** [json.Decoder.Decode] into [struct{Experiment}]. *)
  decode_experiment : string -> option DecodedExperiment;
  (** [http.DefaultClient]. *)
  DefaultClient : Transport
}.

(** ** Slices of tags and the store of backing arrays *)

(** [type Tags []Tag]: a slice header. [ptr = None] is the nil slice. *)
Record Tags := mkTags { ptr : option nat; len : nat; cap : nat }.

(** The store: backing array number [a] is [h !! a]. *)
Abbreviation Heap := (list (list Tag)).

Definition nilTags : Tags := mkTags None 0 0.
Definition zeroTag : Tag := mkTag "" "".

Definition array_of (h : Heap) (t : Tags) : list Tag :=
  match ptr t with
  | None => []
  | Some a => default [] (h !! a)
  end.

(** The elements a slice shows: [t[0] .. t[len-1]]. *)
Definition elems (h : Heap) (t : Tags) : list Tag :=
  take (len t) (array_of h t).

(** [t[i] = x] for [i] in range (Go panics otherwise; the callers below
    only pass indices in range, out of range the store is left as is). *)
Definition store_at (i : nat) (x : Tag) (t : Tags) (h : Heap) : Heap :=
  match ptr t with
  | None => h
  | Some a => alter (fun arr => <[i := x]> arr) a h
  end.

(** [t[i].Value = value]. *)
Definition store_value_at (i : nat) (value : string) (t : Tags) (h : Heap) : Heap :=
  match ptr t with
  | None => h
  | Some a => alter (alter (fun tag => mkTag (Key tag) value) i) a h
  end.

(** [make(Tags, n)]: a fresh zeroed array, never the nil slice. *)
Definition make_Tags (n : nat) (h : Heap) : Tags * Heap :=
  (mkTags (Some (length h)) n n, h ++ [replicate n zeroTag]).

(** A slice is well formed in a store when its array is allocated and
    [len <= cap <= length of the array]. *)
Definition wf_slice (h : Heap) (t : Tags) : Prop :=
  match ptr t with
  | None => len t = 0 /\ cap t = 0
  | Some a =>
      match h !! a with
      | Some arr => len t <= cap t /\ cap t <= length arr
      | None => False
      end
  end.

Section Slices.
Context `{Runtime}.

(** [append(t, x)]: in place when capacity is left, else into a
    fresh array holding the old elements. *)
Definition append (t : Tags) (x : Tag) (h : Heap) : Tags * Heap :=
  if decide (len t < cap t) then
    (mkTags (ptr t) (S (len t)) (cap t), store_at (len t) x t h)
  else
    let newcap := S (len t) + extra_cap (cap t) (S (len t)) in
    (mkTags (Some (length h)) (S (len t)) newcap,
     h ++ [elems h t ++ x :: replicate (newcap - S (len t)) zeroTag]).
End Slices.

(** ** The entity source: Tags *)

(** The loop [for i, tag := range *t { if tag.Key == key {...} }]:
    the index of the first tag with the key, counting from [i]. *)
Fixpoint range_find (key : string) (i : nat) (l : list Tag) : option nat :=
  match l with
  | [] => None
  | tag :: l' =>
      if decide (Key tag = key) then Some i else range_find key (S i) l'
  end.

Fixpoint range_contains (key : string) (l : list Tag) : bool :=
  match l with
  | [] => false
  | tag :: l' => if decide (Key tag = key) then true else range_contains key l'
  end.

Fixpoint range_get (key : string) (l : list Tag) : string :=
  match l with
  | [] => ""
  | tag :: l' => if decide (Key tag = key) then Value tag else range_get key l'
  end.

Definition Tags_Contains (key : string) (t : Tags) (h : Heap) : bool :=
  range_contains key (elems h t).

Definition Tags_Get (key : string) (t : Tags) (h : Heap) : string :=
  range_get key (elems h t).

Section TagsSet.
Context `{Runtime}.

(** [func (t *Tags) Set(key, value string)]: the header [*t] and the
    store go in and come out. *)
Definition Tags_Set (key value : string) (t : Tags) (h : Heap) : Tags * Heap :=
  match range_find key 0 (elems h t) with
  | Some i => (t, store_value_at i value t h)
  | None => append t (mkTag key value) h
  end.
End TagsSet.

Definition Tags_Len (t : Tags) : nat := len t.

(** ** The entity source: Experiment *)

Record Experiment := mkExperiment {
  ExperimentID : string;
  Name : string;
  ArtifactLocation : string;
  CreationTime : Z;
  LastUpdatedTime : Z;
  LifecycleStage : string;
  ETags : Tags
}.

(** [Experiment{}]. *)
Definition Experiment_zero : Experiment :=
  mkExperiment "" "" "" 0 0 "" nilTags.

Definition with_ExperimentID (id : string) (e : Experiment) : Experiment :=
  mkExperiment id (Name e) (ArtifactLocation e) (CreationTime e)
    (LastUpdatedTime e) (LifecycleStage e) (ETags e).

Definition with_Name (name : string) (e : Experiment) : Experiment :=
  mkExperiment (ExperimentID e) name (ArtifactLocation e) (CreationTime e)
    (LastUpdatedTime e) (LifecycleStage e) (ETags e).

Definition with_CreationTime (s : Z) (e : Experiment) : Experiment :=
  mkExperiment (ExperimentID e) (Name e) (ArtifactLocation e) s
    (LastUpdatedTime e) (LifecycleStage e) (ETags e).

Definition with_LastUpdatedTime (s : Z) (e : Experiment) : Experiment :=
  mkExperiment (ExperimentID e) (Name e) (ArtifactLocation e) (CreationTime e)
    s (LifecycleStage e) (ETags e).

Definition with_Tags (t : Tags) (e : Experiment) : Experiment :=
  mkExperiment (ExperimentID e) (Name e) (ArtifactLocation e) (CreationTime e)
    (LastUpdatedTime e) (LifecycleStage e) t.

(** One turn of [for index := range e.Tags { out.Tags[index] = Tag{...} }]. *)
Definition copy_tag (src dst : Tags) (h : Heap) (index : nat) : Heap :=
  match elems h src !! index with
  | Some tag => store_at index (mkTag (Key tag) (Value tag)) dst h
  | None => h
  end.

(** [func (e *Experiment) DeepCopyInto(out *Experiment)]; [out] is
    overwritten whole, its new value is returned. *)
Definition Experiment_DeepCopyInto (e out : Experiment) (h : Heap)
  : Experiment * Heap :=
  let out := e in
  let '(tags, h1) := make_Tags (len (ETags e)) h in
  let out := with_Tags tags out in
  (out, foldl (copy_tag (ETags e) tags) h1 (seq 0 (len (ETags e)))).

(** [func (e *Experiment) DeepCopy() *Experiment]. *)
Definition Experiment_DeepCopy (e : Experiment) (h : Heap) : Experiment * Heap :=
  Experiment_DeepCopyInto e Experiment_zero h.

Definition Experiment_GetNamespace (e : Experiment) (h : Heap) : string :=
  Tags_Get "metadata.namespace" (ETags e) h.

(** ** Package time, as far as the accessors use it

    After the Go sources of [time.Time]: [wall] (uint64) carries the
    nanoseconds in its low 30 bits and, when the top bit is set, seconds
    since 1885; otherwise [ext] (int64) carries seconds since year 1. *)

Definition wrap64 (z : Z) : Z := ((z + 2 ^ 63) mod 2 ^ 64 - 2 ^ 63)%Z.
Definition wrapU64 (z : Z) : Z := (z mod 2 ^ 64)%Z.

Inductive Location := UTC | Local | Zone (name : string).

Record Time := mkTime { wall : Z; ext : Z; loc : Location }.

Definition hasMonotonic : Z := (2 ^ 63)%Z.
Definition nsecShift : Z := 30%Z.
Definition nsecMask : Z := (2 ^ 30 - 1)%Z.
Definition unixToInternal : Z :=
  ((1969 * 365 + 1969 / 4 - 1969 / 100 + 1969 / 400) * 86400)%Z.
Definition internalToUnix : Z := (- unixToInternal)%Z.
Definition wallToInternal : Z :=
  ((1884 * 365 + 1884 / 4 - 1884 / 100 + 1884 / 400) * 86400)%Z.

Definition Time_sec (t : Time) : Z :=
  if decide (Z.land (wall t) hasMonotonic <> 0%Z) then
    wrap64 (wallToInternal
            + Z.shiftr (wrapU64 (Z.shiftl (wall t) 1)) (nsecShift + 1))
  else ext t.

(** [func (t Time) Unix() int64]. *)
Definition Time_Unix (t : Time) : Z := wrap64 (Time_sec t + internalToUnix).

(** [func (t Time) Nanosecond() int]. *)
Definition Time_Nanosecond (t : Time) : Z := Z.land (wall t) nsecMask.

Definition unixTime (sec nsec : Z) : Time :=
  mkTime (wrapU64 nsec) (wrap64 (sec + unixToInternal)) Local.

(** [func Unix(sec int64, nsec int64) Time]. *)
Definition time_Unix (sec nsec : Z) : Time :=
  if decide (nsec < 0 \/ 1000000000 <= nsec)%Z then
    let n := Z.quot nsec 1000000000 in
    let sec := wrap64 (sec + n) in
    let nsec := wrap64 (nsec - n * 1000000000) in
    if decide (nsec < 0)%Z then
      unixTime (wrap64 (sec - 1)) (wrap64 (nsec + 1000000000))
    else unixTime sec nsec
  else unixTime sec nsec.

(** ** The entity source: the timestamp accessors *)

Definition Experiment_GetCreationTimestamp (e : Experiment) : Time :=
  time_Unix (CreationTime e) 0.

Definition Experiment_SetCreationTimestamp (t : Time) (e : Experiment) : Experiment :=
  with_CreationTime (Time_Unix t) e.

Definition Experiment_GetLastUpdatedTimestamp (e : Experiment) : Time :=
  time_Unix (LastUpdatedTime e) 0.

Definition Experiment_SetLastUpdatedTimestamp (t : Time) (e : Experiment) : Experiment :=
  with_LastUpdatedTime (Time_Unix t) e.

(** ** Package strings and fmt, as far as the client uses them *)

(** [strings.TrimPrefix(s, prefix)]: [s[len(prefix):]] when [s] has the
    prefix, [s] otherwise. *)
Definition strings_TrimPrefix (s prefix : string) : string :=
  if String.prefix prefix s then
    String.substring (String.length prefix)
      (String.length s - String.length prefix) s
  else s.

(** [http.Header.Set]: replace the entry of the key, or add it. *)
Fixpoint header_set (key value : string) (hd : list (string * string))
  : list (string * string) :=
  match hd with
  | [] => [(key, value)]
  | (k, v) :: hd' =>
      if decide (k = key) then (key, value) :: hd'
      else (k, v) :: header_set key value hd'
  end.

Definition Header_Set (key value : string) (req : Request) : Request :=
  mkRequest (ReqMethod req) (ReqURL req) (header_set key value (Header req))
    (ReqBody req).

(** ** client.go: options *)

Record DeleteOptions := mkDeleteOptions {
  do_IgnoreMissing : bool;
  do_Namespace : string
}.

Record CreateOptions := mkCreateOptions { co_Namespace : string }.

Record GetOptions := mkGetOptions { go_Namespace : string }.

(** [type InNamespace string] and [type IgnoreMissing bool]. *)
Definition InNamespace : Type := string.
Definition IgnoreMissing : Type := bool.

Definition InNamespace_ApplyToCreate (i : InNamespace) (o : CreateOptions)
  : CreateOptions := mkCreateOptions i.

Definition InNamespace_ApplyToGet (i : InNamespace) (o : GetOptions)
  : GetOptions := mkGetOptions i.

(** The body of this method is empty in the source. *)
Definition InNamespace_ApplyToDelete (i : InNamespace) (o : DeleteOptions)
  : DeleteOptions := o.

Definition IgnoreMissing_ApplyToDelete (i : IgnoreMissing) (o : DeleteOptions)
  : DeleteOptions := mkDeleteOptions i (do_Namespace o).

(** The interface values: one constructor per type that implements the
    interface in the source. *)
Inductive CreateOption := CreateOption_InNamespace (i : InNamespace).

Inductive GetOption := GetOption_InNamespace (i : InNamespace).

Inductive DeleteOption :=
| DeleteOption_InNamespace (i : InNamespace)
| DeleteOption_IgnoreMissing (i : IgnoreMissing).

Definition ApplyToCreate (f : CreateOption) (o : CreateOptions) : CreateOptions :=
  match f with CreateOption_InNamespace i => InNamespace_ApplyToCreate i o end.

Definition ApplyToGet (f : GetOption) (o : GetOptions) : GetOptions :=
  match f with GetOption_InNamespace i => InNamespace_ApplyToGet i o end.

Definition ApplyToDelete (f : DeleteOption) (o : DeleteOptions) : DeleteOptions :=
  match f with
  | DeleteOption_InNamespace i => InNamespace_ApplyToDelete i o
  | DeleteOption_IgnoreMissing i => IgnoreMissing_ApplyToDelete i o
  end.

(** [o := &CreateOptions{}; for _, f := range opts { f.ApplyToCreate(o) };
    if o.Namespace == "" { o.Namespace = "default" }]. *)
Definition CreateOptions_of (opts : list CreateOption) : CreateOptions :=
  let o := foldl (fun o f => ApplyToCreate f o) (mkCreateOptions "") opts in
  if decide (co_Namespace o = "") then mkCreateOptions "default" else o.

Definition GetOptions_of (opts : list GetOption) : GetOptions :=
  let o := foldl (fun o f => ApplyToGet f o) (mkGetOptions "") opts in
  if decide (go_Namespace o = "") then mkGetOptions "default" else o.

Definition DeleteOptions_of (opts : list DeleteOption) : DeleteOptions :=
  let o := foldl (fun o f => ApplyToDelete f o) (mkDeleteOptions false "") opts in
  if decide (do_Namespace o = "") then mkDeleteOptions (do_IgnoreMissing o) "default"
  else o.

(** ** client.go: the client and its effects *)

(** The errors the operations return, by the place that builds them. *)
Inductive error :=
| ErrMissingAttribute (attr : string)
    (** [missing required attribute %q on experiment] *)
| ErrExperimentIDMustBeSet
    (** [ExperimentID must be set] *)
| ErrNewRequest
| ErrTransport
| ErrReadBody
| ErrDecode
| ErrUnexpectedStatus (code : Z) (data : string)
    (** [unexpected status code %d: %s] *).

Record client := mkClient {
  address : URL;
  httpClient : option Transport;
  authenticator : option (Request -> Request)
}.

(** What an operation can read and write: the Experiment its argument
    points to, the client its receiver points to, the store of tag
    arrays, and the requests handed to the transport so far. *)
Record State := mkState {
  experiment : Experiment;
  self : client;
  heap : Heap;
  sent : list Request
}.

(** [Ok tt] is [return nil], [Err e] is [return err]. *)
Inductive result (A : Type) :=
| Ok (a : A)
| Err (e : error)
| Panic.

Arguments Ok {A} a.
Arguments Err {A} e.
Arguments Panic {A}.

Definition M (A : Type) : Type := State -> result A * State.

#[export] Instance M_ret : MRet M := fun A a st => (Ok a, st).

#[export] Instance M_bind : MBind M := fun A B f m st =>
  match m st with
  | (Ok a, st') => f a st'
  | (Err e, st') => (Err e, st')
  | (Panic, st') => (Panic, st')
  end.

Definition fail {A} (e : error) : M A := fun st => (Err e, st).
Definition panic {A} : M A := fun st => (Panic, st).

Definition get_experiment : M Experiment := fun st => (Ok (experiment st), st).
Definition get_client : M client := fun st => (Ok (self st), st).
Definition get_heap : M Heap := fun st => (Ok (heap st), st).

Definition set_experiment (e : Experiment) : M unit := fun st =>
  (Ok tt, mkState e (self st) (heap st) (sent st)).
Definition set_client (c : client) : M unit := fun st =>
  (Ok tt, mkState (experiment st) c (heap st) (sent st)).
Definition set_heap (h : Heap) : M unit := fun st =>
  (Ok tt, mkState (experiment st) (self st) h (sent st)).

(** [io.ReadAll(body)]. *)
Definition io_ReadAll (body : option string) : M string :=
  match body with
  | Some data => mret data
  | None => fail ErrReadBody
  end.

(** [if c.authenticator != nil { c.authenticator(req) }]. *)
Definition authenticate (c : client) (req : Request) : Request :=
  match authenticator c with
  | Some f => f req
  | None => req
  end.

(** In the three operations below [json.Encoder.Encode] of the request
    struct is the construction of its [Payload] (it cannot fail on
    structs of strings), and [defer body.Close()] has no counterpart:
    the model has no resource to release. *)

Section Client.
Context `{Runtime}.

Definition mustCopyURL (i : URL) : M URL :=
  match url_Parse (URL_String i) with
  | Some out => mret out
  | None => panic
  end.

Definition mustParseURL (i : string) : M URL :=
  match url_Parse i with
  | Some out => mret out
  | None => panic
  end.

(** [http.NewRequest(method, url, body)]. *)
Definition http_NewRequest (method : Method) (url : string) (body : Payload)
  : M Request :=
  match url_Parse url with
  | Some u => mret (mkRequest method u [] body)
  | None => fail ErrNewRequest
  end.

(** [if c.httpClient == nil { c.httpClient = http.DefaultClient }]. *)
Definition default_httpClient : M unit :=
  c ← get_client;
  match httpClient c with
  | None => set_client (mkClient (address c) (Some DefaultClient) (authenticator c))
  | Some _ => mret tt
  end.

(** [c.httpClient.Do(req)]: the request joins the trace whether the
    transport answers or fails. *)
Definition Do (req : Request) : M Response := fun st =>
  match httpClient (self st) with
  | None => (Panic, st)
  | Some transport =>
      let st' := mkState (experiment st) (self st) (heap st) (sent st ++ [req]) in
      match transport (sent st) req with
      | Some res => (Ok res, st')
      | None => (Err ErrTransport, st')
      end
  end.

(** [json.NewDecoder(body).Decode(&out)] with
    [out struct{ExperimentID string}]. *)
Definition decode_created_body (body : option string) : M string :=
  data ← io_ReadAll body;
  match decode_created data with
  | Some id => mret id
  | None => fail ErrDecode
  end.

(** [json.NewDecoder(body).Decode(&out)] with [out struct{Experiment}]:
    the decoded tags, when there are any, get an array of their own. *)
Definition decode_experiment_body (body : option string) : M Experiment :=
  data ← io_ReadAll body;
  match decode_experiment data with
  | None => fail ErrDecode
  | Some d =>
      h ← get_heap;
      let tags :=
        match d_Tags d with
        | None => nilTags
        | Some l => mkTags (Some (length h)) (length l) (length l)
        end in
      match d_Tags d with
      | None => mret tt
      | Some l => set_heap (h ++ [l])
      end;;
      mret (mkExperiment (d_ExperimentID d) (d_Name d) (d_ArtifactLocation d)
              (d_CreationTime d) (d_LastUpdatedTime d) (d_LifecycleStage d) tags)
  end.

(** [x.DeepCopyInto(experiment)] for a local [x]. *)
Definition DeepCopyInto_experiment (x : Experiment) : M unit :=
  e ← get_experiment;
  h ← get_heap;
  let '(e', h') := Experiment_DeepCopyInto x e h in
  set_heap h';;
  set_experiment e'.

Definition GetExperiment (opts : list GetOption) : M unit :=
  e ← get_experiment;
  if decide (ExperimentID e = "") then fail ErrExperimentIDMustBeSet else
  let o := GetOptions_of opts in
  c ← get_client;
  u ← mustCopyURL (address c);
  let u := with_Path (path_Join (Path u) "/api/2.0/mlflow/experiments/get") u in
  let u := with_RawQuery (query_Set (RawQuery u) "experiment_id" (ExperimentID e)) u in
  req ← http_NewRequest MethodGet (URL_String u) NoPayload;
  let req := Header_Set "Accept" "application/json" req in
  let req := authenticate c req in
  default_httpClient;;
  res ← Do req;
  if decide (StatusCode res <> 200%Z) then
    data ← io_ReadAll (Body res);
    fail (ErrUnexpectedStatus (StatusCode res) data)
  else
    out ← decode_experiment_body (Body res);
    DeepCopyInto_experiment out;;
    e ← get_experiment;
    h ← get_heap;
    let namespace := Tags_Get "metadata.namespace" (ETags e) h in
    if decide (namespace <> "") then
      let prefix := namespace +:+ "/" in
      set_experiment (with_Name (strings_TrimPrefix (Name e) prefix) e)
    else mret tt.

(** The local [in] of CreateExperiment: [in.Tags = experiment.Tags]
    copies the header, so [in.Tags.Set] works on the caller's array. *)
Definition create_input (o : CreateOptions) (e : Experiment) (h : Heap)
  : Payload * Heap :=
  let in_Name := co_Namespace o +:+ "/" +:+ Name e in
  let in_ArtifactLocation := ArtifactLocation e in
  let in_Tags := ETags e in
  let '(in_Tags, h') := Tags_Set "metadata.namespace" (co_Namespace o) in_Tags h in
  (CreatePayload in_Name in_ArtifactLocation (elems h' in_Tags), h').

Definition CreateExperiment (opts : list CreateOption) : M unit :=
  e ← get_experiment;
  if decide (Name e = "") then fail (ErrMissingAttribute "Name") else
  let o := CreateOptions_of opts in
  c ← get_client;
  u ← mustCopyURL (address c);
  let u := with_Path (path_Join (Path u) "/api/2.0/mlflow/experiments/create") u in
  h ← get_heap;
  let '(body, h') := create_input o e h in
  set_heap h';;
  req ← http_NewRequest MethodPost (URL_String u) body;
  let req := authenticate c req in
  default_httpClient;;
  let req := Header_Set "Content-Type" "application/json" req in
  let req := Header_Set "Accept" "application/json" req in
  res ← Do req;
  if decide (StatusCode res <> 200%Z) then
    data ← io_ReadAll (Body res);
    fail (ErrUnexpectedStatus (StatusCode res) data)
  else
    out_ExperimentID ← decode_created_body (Body res);
    e ← get_experiment;
    set_experiment (with_ExperimentID out_ExperimentID e);;
    GetExperiment [GetOption_InNamespace (co_Namespace o)].

Definition DeleteExperiment (opts : list DeleteOption) : M unit :=
  e ← get_experiment;
  if decide (ExperimentID e = "") then fail ErrExperimentIDMustBeSet else
  let o := DeleteOptions_of opts in
  c ← get_client;
  u ← mustCopyURL (address c);
  let u := with_Path (path_Join (Path u) "/api/2.0/mlflow/experiments/delete") u in
  let body := DeletePayload (ExperimentID e) in
  req ← http_NewRequest MethodPost (URL_String u) body;
  let req := authenticate c req in
  default_httpClient;;
  let req := Header_Set "Content-Type" "application/json" req in
  let req := Header_Set "Accept" "application/json" req in
  res ← Do req;
  if decide (StatusCode res = 200%Z) then
    DeepCopyInto_experiment Experiment_zero
  else if decide (StatusCode res = 404%Z /\ do_IgnoreMissing o = true) then
    DeepCopyInto_experiment Experiment_zero
  else
    data ← io_ReadAll (Body res);
    fail (ErrUnexpectedStatus (StatusCode res) data).
End Client.

(** ** The entity source: the remaining accessors and the sort interface *)

Definition with_ArtifactLocation (location : string) (e : Experiment) : Experiment :=
  mkExperiment (ExperimentID e) (Name e) location (CreationTime e)
    (LastUpdatedTime e) (LifecycleStage e) (ETags e).

Definition with_LifecycleStage (stage : string) (e : Experiment) : Experiment :=
  mkExperiment (ExperimentID e) (Name e) (ArtifactLocation e) (CreationTime e)
    (LastUpdatedTime e) stage (ETags e).

Definition Experiment_GetExperimentID (e : Experiment) : string := ExperimentID e.
Definition Experiment_SetExperimentID (id : string) (e : Experiment) : Experiment :=
  with_ExperimentID id e.
Definition Experiment_GetName (e : Experiment) : string := Name e.
Definition Experiment_SetName (name : string) (e : Experiment) : Experiment :=
  with_Name name e.
Definition Experiment_GetArtifactLocation (e : Experiment) : string :=
  ArtifactLocation e.
Definition Experiment_SetArtifactLocation (location : string) (e : Experiment)
  : Experiment := with_ArtifactLocation location e.
Definition Experiment_GetLifecycleStage (e : Experiment) : string :=
  LifecycleStage e.
Definition Experiment_SetLifecycleStage (stage : string) (e : Experiment)
  : Experiment := with_LifecycleStage stage e.

(** [func (e *Experiment) GetTags() *Tags] returns the address of the
    field: what it points to is the header [e.Tags]. *)
Definition Experiment_GetTags (e : Experiment) : Tags := ETags e.

(** A method with receiver [*Tags] called on [&e.Tags], as in
    [e.GetTags().Set(k, v)] or [e.Tags.Set(k, v)]: the header it leaves
    is the new [e.Tags]. *)
Definition on_Tags (f : Tags -> Heap -> Tags * Heap) (e : Experiment) (h : Heap)
  : Experiment * Heap :=
  let '(t, h') := f (Experiment_GetTags e) h in (with_Tags t e, h').

(** [func (e *Experiment) SetTags(tags *Tags) { e.Tags = *tags }]: the
    header is copied, the array is not. *)
Definition Experiment_SetTags (tags : Tags) (e : Experiment) : Experiment :=
  with_Tags tags e.

Section NamespaceAccessor.
Context `{Runtime}.

(** [func (e *Experiment) SetNamespace(namespace string)]. *)
Definition Experiment_SetNamespace (namespace : string) (e : Experiment) (h : Heap)
  : Experiment * Heap :=
  on_Tags (Tags_Set "metadata.namespace" namespace) e h.
End NamespaceAccessor.


(** [func (t *Tags) Swap(i, j int)]: both elements are read, then
    [t[i]] and [t[j]] are written. *)
Definition Tags_Swap (i j : nat) (t : Tags) (h : Heap) : option Heap :=
  match elems h t !! i, elems h t !! j with
  | Some a, Some b => Some (store_at j a t (store_at i b t h))
  | _, _ => None
  end.

(** ** The state an operation leaves *)

(** After the request went to the transport: the client has its
    transport, the trace has the request. *)
Definition after_send `{Runtime} (req : Request) (st : State) : State :=
  mkState (experiment st)
    (mkClient (address (self st)) (Some (default DefaultClient (httpClient (self st))))
       (authenticator (self st)))
    (heap st) (sent st ++ [req]).

(** The error a non-200 answer is turned into. *)
Definition status_error (res : Response) : error :=
  match Body res with
  | Some data => ErrUnexpectedStatus (StatusCode res) data
  | None => ErrReadBody
  end.

(** The Name GetExperiment leaves for a decoded experiment. *)
Definition stripped_name (d : DecodedExperiment) : string :=
  let ns := range_get "metadata.namespace" (default [] (d_Tags d)) in
  if decide (ns <> "") then strings_TrimPrefix (d_Name d) (ns +:+ "/")
  else d_Name d.

(** The state GetExperiment leaves once the answer decoded to [d]: the
    decoded tags, when there are any, take one array and their deep
    copy the next. *)
Definition got (d : DecodedExperiment) (st : State) : State :=
  let l := default [] (d_Tags d) in
  let h1 := match d_Tags d with
            | Some _ => heap st ++ [l]
            | None => heap st
            end in
  mkState
    (mkExperiment (d_ExperimentID d) (stripped_name d) (d_ArtifactLocation d)
       (d_CreationTime d) (d_LastUpdatedTime d) (d_LifecycleStage d)
       (mkTags (Some (length h1)) (length l) (length l)))
    (self st) (h1 ++ [l]) (sent st).

(** The state DeleteExperiment leaves on success. *)
Definition deleted (st : State) : State :=
  mkState (with_Tags (mkTags (Some (length (heap st))) 0 0) Experiment_zero)
    (self st) (heap st ++ [[]]) (sent st).

(** ** Notions the statements below are phrased with *)

(** Upsert, in the words of the description of [Set]: replace the value
    of the first tag with the key if there is one, else add the pair at
    the end. *)
Fixpoint upsert (k v : string) (l : list Tag) : list Tag :=
  match l with
  | [] => [mkTag k v]
  | tag :: l' =>
      if decide (Key tag = k) then mkTag (Key tag) v :: l'
      else tag :: upsert k v l'
  end.

(** How many tags carry the key. *)
Definition count_key (k : string) (l : list Tag) : nat :=
  length (filter (fun tag => Key tag = k) l).

(** The tags with another key, in their order. *)
Definition others (k : string) (l : list Tag) : list Tag :=
  filter (fun tag => Key tag <> k) l.

(** [reflect.DeepEqual] on two tag slices, which is what the
    repository's tests compare Experiments with: both nil or both not,
    the same length, and the same array or equal elements. *)
Definition Tags_DeepEqual (h : Heap) (a b : Tags) : bool :=
  match ptr a, ptr b with
  | None, None => true
  | Some _, Some _ =>
      bool_decide (len a = len b) &&
      (bool_decide (ptr a = ptr b) || bool_decide (elems h a = elems h b))
  | _, _ => false
  end.

Definition Experiment_DeepEqual (h : Heap) (a b : Experiment) : bool :=
  bool_decide (ExperimentID a = ExperimentID b) &&
  bool_decide (Name a = Name b) &&
  bool_decide (ArtifactLocation a = ArtifactLocation b) &&
  bool_decide (CreationTime a = CreationTime b) &&
  bool_decide (LastUpdatedTime a = LastUpdatedTime b) &&
  bool_decide (LifecycleStage a = LifecycleStage b) &&
  Tags_DeepEqual h (ETags a) (ETags b).

(** ** A runtime to run the model on examples

    Growth doubles the capacity, a URL is kept as its path and query,
    the decoders answer with the given values, and the default transport
    is the given server. *)
Definition example_runtime (created : option string)
    (decoded : option DecodedExperiment) (server : Transport) : Runtime :=
  {| extra_cap := fun old _ => old;
     url_Parse := fun s => Some (mkURL "http" "localhost:5000" s "");
     URL_String := fun u =>
       if decide (RawQuery u = "") then Path u else Path u +:+ "?" +:+ RawQuery u;
     path_Join := fun a b => a +:+ b;
     query_Set := fun q k v => k +:+ "=" +:+ v;
     decode_created := fun _ => created;
     decode_experiment := fun _ => decoded;
     DefaultClient := server |}.

(** A server that answers every request with one status and body. *)
Definition always (status : Z) (body : string) : Transport :=
  fun _ _ => Some (mkResponse status (Some body)).

(** The runtime of the examples about slices alone. *)
Definition plain_runtime : Runtime :=
  example_runtime None None (always 200 "").

(** The client of the repository's tests,
    [&client{address: mustParseURL("http://localhost:5000")}]. *)
Definition test_client : client :=
  mkClient (mkURL "http" "localhost:5000" "" "") None None.

(** A runtime whose [url.Parse] rejects everything. *)
Definition unparsable_runtime : Runtime :=
  {| extra_cap := fun old _ => old;
     url_Parse := fun _ => None;
     URL_String := fun u => Path u;
     path_Join := fun a b => a +:+ b;
     query_Set := fun q k v => k +:+ "=" +:+ v;
     decode_created := fun _ => None;
     decode_experiment := fun _ => None;
     DefaultClient := always 200 "" |}.

(** ** The requests the operations hand to the transport *)

Definition create_request (c : client) (u : URL) (body : Payload) : Request :=
  Header_Set "Accept" "application/json"
    (Header_Set "Content-Type" "application/json"
       (authenticate c (mkRequest MethodPost u [] body))).

Definition get_request (c : client) (u : URL) : Request :=
  authenticate c
    (Header_Set "Accept" "application/json" (mkRequest MethodGet u [] NoPayload)).

Definition delete_request (c : client) (u : URL) (id : string) : Request :=
  Header_Set "Accept" "application/json"
    (Header_Set "Content-Type" "application/json"
       (authenticate c (mkRequest MethodPost u [] (DeletePayload id)))).

(** The URL of each endpoint, from the copy of the client's address. *)
Definition create_url `{Runtime} (u : URL) : URL :=
  with_Path (path_Join (Path u) "/api/2.0/mlflow/experiments/create") u.

Definition get_url `{Runtime} (u : URL) (id : string) : URL :=
  with_RawQuery (query_Set (RawQuery u) "experiment_id" id)
    (with_Path (path_Join (Path u) "/api/2.0/mlflow/experiments/get") u).

Definition delete_url `{Runtime} (u : URL) : URL :=
  with_Path (path_Join (Path u) "/api/2.0/mlflow/experiments/delete") u.

(** The transport a client uses: its own, or the default one. *)
Definition transport_of `{Runtime} (c : client) : Transport :=
  default DefaultClient (httpClient c).

(** The client after [c.httpClient] has been defaulted. *)
Definition with_transport (transport : Transport) (c : client) : client :=
  mkClient (address c) (Some transport) (authenticator c).

(** An operation that hands nothing to the transport. *)
Definition silent {A} (m : M A) : Prop :=
  forall st, sent (m st).2 = sent st.

(** An operation only ever adds to the trace of requests. *)
Definition extends {A} (m : M A) : Prop :=
  forall st, exists rest, sent (m st).2 = sent st ++ rest.

(** * Properties *)

(** ** The loops over a tag sequence *)

Lemma upsert_absent k v l :
  count_key k l = 0 -> upsert k v l = l ++ [mkTag k v].
Proof.
  unfold count_key. induction l as [|tag l IH]; simpl; [done|].
  rewrite filter_cons. destruct (decide (Key tag = k)); simpl; [done|].
  intros Hc. by rewrite IH.
Qed.

Lemma range_find_absent k i l :
  range_find k i l = None <-> count_key k l = 0.
Proof.
  unfold count_key. revert i. induction l as [|tag l IH]; intros i; simpl; [done|].
  rewrite filter_cons. destruct (decide (Key tag = k)); simpl; [done|].
  apply IH.
Qed.

Lemma range_find_Some k v i l j :
  range_find k i l = Some j ->
  i <= j /\ j - i < length l /\
  upsert k v l = alter (fun tag => mkTag (Key tag) v) (j - i) l.
Proof.
  revert i. induction l as [|tag l IH]; intros i; simpl; [done|].
  destruct (decide (Key tag = k)) as [E|NE].
  - intros [= <-]. replace (i - i) with 0 by lia. split; [lia|]. split; [lia|done].
  - intros Hf. destruct (IH _ Hf) as (Hle & Hlt & Hup).
    split; [lia|]. split; [lia|].
    replace (j - i) with (S (j - S i)) by lia. simpl. by rewrite Hup.
Qed.

Lemma range_contains_count k l :
  range_contains k l = true <-> count_key k l <> 0.
Proof.
  unfold count_key. induction l as [|tag l IH]; simpl; [done|].
  rewrite filter_cons. destruct (decide (Key tag = k)); simpl; [done|].
  apply IH.
Qed.

Lemma range_contains_false k l :
  range_contains k l = false <-> count_key k l = 0.
Proof.
  destruct (range_contains k l) eqn:E.
  - apply range_contains_count in E. split; [done|lia].
  - split; [|done]. intros _.
    destruct (decide (count_key k l = 0)) as [|NE]; [done|].
    apply range_contains_count in NE. congruence.
Qed.

(** ** Upsert on sequences *)

Lemma count_key_upsert k v l :
  count_key k (upsert k v l) = Nat.max 1 (count_key k l).
Proof.
  unfold count_key. induction l as [|tag l IH]; simpl.
  - rewrite filter_cons. simpl. by destruct (decide (k = k)).
  - destruct (decide (Key tag = k)) as [E|NE].
    + rewrite !filter_cons. simpl. destruct (decide (Key tag = k)); [|done].
      simpl. lia.
    + rewrite !filter_cons. destruct (decide (Key tag = k)); [done|]. apply IH.
Qed.

Lemma range_get_upsert k v l : range_get k (upsert k v l) = v.
Proof.
  induction l as [|tag l IH]; simpl.
  - by destruct (decide (k = k)).
  - destruct (decide (Key tag = k)) as [E|NE]; simpl.
    + by destruct (decide (Key tag = k)).
    + by destruct (decide (Key tag = k)).
Qed.

Lemma upsert_upsert k v1 v2 l :
  upsert k v2 (upsert k v1 l) = upsert k v2 l.
Proof.
  induction l as [|tag l IH]; simpl.
  - by destruct (decide (k = k)).
  - destruct (decide (Key tag = k)) as [E|NE]; simpl.
    + by destruct (decide (Key tag = k)).
    + destruct (decide (Key tag = k)); [done|]. by rewrite IH.
Qed.

Lemma others_upsert k v l : others k (upsert k v l) = others k l.
Proof.
  unfold others. induction l as [|tag l IH]; simpl.
  - rewrite filter_cons. simpl. by destruct (decide (k <> k)).
  - destruct (decide (Key tag = k)) as [E|NE].
    + rewrite !filter_cons. simpl. by destruct (decide (Key tag <> k)).
    + rewrite !filter_cons. destruct (decide (Key tag <> k)); by rewrite IH.
Qed.

Lemma upsert_lookup_other k v l i tag :
  l !! i = Some tag -> Key tag <> k -> upsert k v l !! i = Some tag.
Proof.
  revert i. induction l as [|x l IH]; intros i; simpl; [done|].
  destruct i as [|i]; simpl.
  - intros [= ->] NE. by destruct (decide (Key tag = k)).
  - intros Hl NE. destruct (decide (Key x = k)); simpl; [done|]. by apply IH.
Qed.

Lemma length_upsert k v l :
  length (upsert k v l) = if decide (count_key k l = 0) then S (length l) else length l.
Proof.
  unfold count_key. induction l as [|x l IH]; simpl; [done|].
  rewrite filter_cons. destruct (decide (Key x = k)); simpl; [done|].
  rewrite IH. by destruct (decide _).
Qed.

Lemma upsert_value_of_key k v l tag :
  count_key k l <= 1 -> tag ∈ upsert k v l -> Key tag = k -> Value tag = v.
Proof.
  unfold count_key. induction l as [|x l IH]; simpl.
  - intros _ Hin _. apply list_elem_of_singleton in Hin. by subst.
  - rewrite filter_cons. destruct (decide (Key x = k)) as [E|NE]; simpl.
    + intros Hc Hin Hk. apply elem_of_cons in Hin as [->|Hin]; [done|].
      assert (tag ∈ filter (fun t => Key t = k) l) as Hf
        by (apply list_elem_of_filter; done).
      destruct (filter (fun t => Key t = k) l); [by apply elem_of_nil in Hf|].
      simpl in Hc. lia.
    + intros Hc Hin Hk. apply elem_of_cons in Hin as [->|Hin]; [done|]. by apply IH.
Qed.

(** ** Slices in the store *)

Lemma wf_slice_length h t : wf_slice h t -> length (elems h t) = len t.
Proof.
  unfold wf_slice, elems, array_of. destruct (ptr t) as [a|]; simpl.
  - destruct (h !! a) as [arr|]; simpl; [|done].
    intros [? ?]. rewrite length_take. lia.
  - intros [-> _]. done.
Qed.

Lemma elems_frame (h h' : Heap) s :
  (forall a, ptr s = Some a -> h' !! a = h !! a) -> elems h' s = elems h s.
Proof.
  unfold elems, array_of. destruct (ptr s) as [a|]; [|done].
  intros Hf. by rewrite (Hf a).
Qed.

Lemma wf_slice_frame (h h' : Heap) s :
  (forall a, ptr s = Some a -> h' !! a = h !! a) -> wf_slice h s -> wf_slice h' s.
Proof.
  unfold wf_slice. destruct (ptr s) as [a|]; [|done].
  intros Hf. by rewrite (Hf a).
Qed.

Lemma wf_slice_allocated (h : Heap) s a :
  wf_slice h s -> ptr s = Some a -> a < length h.
Proof.
  unfold wf_slice. intros Hwf E. rewrite E in Hwf.
  destruct (h !! a) eqn:El; [|done]. by apply lookup_lt_Some in El.
Qed.

Lemma store_value_at_other (h : Heap) t i v a :
  ptr t <> Some a -> store_value_at i v t h !! a = h !! a.
Proof.
  unfold store_value_at. destruct (ptr t) as [b|]; [|done].
  intros NE. apply list_lookup_alter_ne. congruence.
Qed.

Lemma store_at_other (h : Heap) t i x a :
  ptr t <> Some a -> store_at i x t h !! a = h !! a.
Proof.
  unfold store_at. destruct (ptr t) as [b|]; [|done].
  intros NE. apply list_lookup_alter_ne. congruence.
Qed.

Lemma length_store_value_at (h : Heap) t i v :
  length (store_value_at i v t h) = length h.
Proof.
  unfold store_value_at. destruct (ptr t); [|done]. apply length_alter.
Qed.

Lemma length_store_at (h : Heap) t i x : length (store_at i x t h) = length h.
Proof.
  unfold store_at. destruct (ptr t); [|done]. apply length_alter.
Qed.

Lemma elems_store_value_at (h : Heap) t i v :
  wf_slice h t -> i < len t ->
  elems (store_value_at i v t h) t
  = alter (fun tag => mkTag (Key tag) v) i (elems h t)
  /\ wf_slice (store_value_at i v t h) t.
Proof.
  unfold wf_slice, elems, array_of, store_value_at.
  destruct (ptr t) as [a|]; simpl.
  - destruct (h !! a) as [arr|] eqn:E; [|done]. intros [Hl Hc] Hi.
    rewrite list_lookup_alter_eq, E. simpl.
    rewrite length_alter. split; [|done]. by apply take_alter_lt.
  - intros [-> _] Hi. lia.
Qed.

Section SliceProperties.
Context `{Runtime}.

Lemma append_elems (h : Heap) t x t' h' :
  wf_slice h t -> append t x h = (t', h') ->
  elems h' t' = elems h t ++ [x] /\ wf_slice h' t'.
Proof.
  intros Hwf. pose proof (wf_slice_length h t Hwf) as Hlen.
  unfold append. destruct (decide (len t < cap t)) as [Hlt|Hge].
  - intros [= <- <-]. revert Hwf Hlen.
    unfold wf_slice, elems, array_of, store_at. simpl.
    destruct (ptr t) as [a|]; simpl; [|lia].
    destruct (h !! a) as [arr|] eqn:E; [|done]. simpl. intros [Hl Hc] _.
    rewrite list_lookup_alter_eq, E. simpl. rewrite length_insert.
    split; [|lia].
    rewrite (take_S_r _ _ x) by (apply list_lookup_insert_eq; lia).
    by rewrite take_insert_ge by lia.
  - intros [= <- <-]. unfold wf_slice, elems at 1, array_of. simpl.
    rewrite lookup_app_r by lia. replace (length h - length h) with 0 by lia.
    simpl. split.
    + rewrite (cons_middle x), app_assoc.
      apply take_app_length'. rewrite List.length_app, Hlen. simpl. lia.
    + rewrite List.length_app, Hlen. simpl. rewrite length_replicate. lia.
Qed.

Lemma append_other (h : Heap) t x t' h' a :
  append t x h = (t', h') -> ptr t <> Some a -> a < length h ->
  h' !! a = h !! a.
Proof.
  unfold append. destruct (decide (len t < cap t)); intros [= <- <-] NE Ha.
  - by apply store_at_other.
  - by apply lookup_app_l.
Qed.

(** [Tags.Set] computes the upsert of the elements it is given. *)
Lemma Tags_Set_elems (h : Heap) t k v t' h' :
  wf_slice h t -> Tags_Set k v t h = (t', h') ->
  elems h' t' = upsert k v (elems h t) /\ wf_slice h' t'.
Proof.
  intros Hwf. unfold Tags_Set.
  destruct (range_find k 0 (elems h t)) as [i|] eqn:Hf.
  - intros [= <- <-].
    destruct (range_find_Some k v 0 _ i Hf) as (_ & Hlt & ->).
    rewrite Nat.sub_0_r in *. rewrite wf_slice_length in Hlt by done.
    by apply elems_store_value_at.
  - intros Happ. apply range_find_absent in Hf.
    rewrite upsert_absent by done. by apply append_elems.
Qed.

(** [Tags.Set] leaves every other array of the store alone. *)
Lemma Tags_Set_other (h : Heap) t k v t' h' a :
  Tags_Set k v t h = (t', h') -> ptr t <> Some a -> a < length h ->
  h' !! a = h !! a.
Proof.
  unfold Tags_Set. destruct (range_find k 0 (elems h t)).
  - intros [= <- <-] NE _. by apply store_value_at_other.
  - apply append_other.
Qed.
End SliceProperties.

(** ** Deep copy *)

Lemma copy_tag_loop (h : Heap) src n k :
  wf_slice h src -> len src = n -> k <= n ->
  foldl (copy_tag src (mkTags (Some (length h)) n n))
    (h ++ [replicate n zeroTag]) (seq 0 k)
  = h ++ [take k (elems h src) ++ replicate (n - k) zeroTag].
Proof.
  intros Hwf Hn. pose proof (wf_slice_length h src Hwf) as Hlen.
  induction k as [|k IH]; intros Hk.
  - simpl. by rewrite Nat.sub_0_r.
  - rewrite seq_S, foldl_app, IH by lia. simpl.
    unfold copy_tag.
    rewrite (elems_frame h) by
      (intros a Ha; apply lookup_app_l; by apply (wf_slice_allocated h src)).
    destruct (elems h src !! k) as [tag|] eqn:Ek;
      [|apply lookup_ge_None in Ek; lia].
    unfold store_at. simpl.
    rewrite alter_app_r_alt by lia.
    replace (length h - length h) with 0 by lia. simpl. do 2 f_equal.
    rewrite insert_app_r_alt by (rewrite length_take; lia).
    rewrite length_take, Nat.min_l by lia.
    replace (k - k) with 0 by lia.
    replace (n - k) with (S (n - S k)) by lia. simpl.
    rewrite (take_S_r _ _ tag) by done.
    rewrite <- app_assoc. simpl. by destruct tag.
Qed.

(** [DeepCopyInto] gives the copy a new array with the elements of the
    original, and touches nothing that was in the store. *)
Lemma Experiment_DeepCopyInto_spec (h : Heap) e out :
  wf_slice h (ETags e) ->
  Experiment_DeepCopyInto e out h
  = (with_Tags (mkTags (Some (length h)) (len (ETags e)) (len (ETags e))) e,
     h ++ [elems h (ETags e)]).
Proof.
  intros Hwf. unfold Experiment_DeepCopyInto, make_Tags.
  rewrite (copy_tag_loop h (ETags e) (len (ETags e)) (len (ETags e))) by done.
  rewrite Nat.sub_diag. simpl. rewrite app_nil_r.
  rewrite take_ge by (rewrite wf_slice_length; done). done.
Qed.

(** ** The time accessors *)

Lemma wrap64_range z : (- 2 ^ 63 <= wrap64 z < 2 ^ 63)%Z.
Proof.
  unfold wrap64. pose proof (Z.mod_pos_bound (z + 2 ^ 63) (2 ^ 64)). lia.
Qed.

Lemma wrap64_shift_back s c :
  (- 2 ^ 63 <= s < 2 ^ 63)%Z -> wrap64 (wrap64 (s + c) + - c) = s.
Proof.
  intros Hs. unfold wrap64.
  replace ((s + c + 2 ^ 63) mod 2 ^ 64 - 2 ^ 63 + - c + 2 ^ 63)%Z
    with ((s + c + 2 ^ 63) mod 2 ^ 64 - c)%Z by lia.
  rewrite Zminus_mod_idemp_l.
  replace (s + c + 2 ^ 63 - c)%Z with (s + 2 ^ 63)%Z by lia.
  rewrite Z.mod_small by lia. lia.
Qed.

Lemma Time_Unix_time_Unix s :
  (- 2 ^ 63 <= s < 2 ^ 63)%Z ->
  Time_Unix (time_Unix s 0) = s /\ Time_Nanosecond (time_Unix s 0) = 0%Z.
Proof.
  intros Hs. unfold time_Unix.
  destruct (decide (0 < 0 \/ 1000000000 <= 0)%Z) as [[?|?]|_]; [lia|lia|].
  unfold Time_Unix, Time_Nanosecond, Time_sec, unixTime. simpl.
  split; [|done]. unfold internalToUnix. by apply wrap64_shift_back.
Qed.

(** C8: the accessors read the stored integer as seconds since the Unix
    epoch: SetCreationTimestamp(t) stores t.Unix(), and
    GetCreationTimestamp() then returns t cut to whole seconds, a time
    whose Unix() is t.Unix() and whose nanoseconds are 0; the same holds
    for SetLastUpdatedTimestamp and GetLastUpdatedTimestamp. *)
Theorem timestamp_accessors_roundtrip (e : Experiment) (t : Time) :
  let e1 := Experiment_SetCreationTimestamp t e in
  let e2 := Experiment_SetLastUpdatedTimestamp t e in
  (CreationTime e1 = Time_Unix t /\
   Experiment_GetCreationTimestamp e1 = time_Unix (Time_Unix t) 0 /\
   Time_Unix (Experiment_GetCreationTimestamp e1) = Time_Unix t /\
   Time_Nanosecond (Experiment_GetCreationTimestamp e1) = 0%Z) /\
  (LastUpdatedTime e2 = Time_Unix t /\
   Experiment_GetLastUpdatedTimestamp e2 = time_Unix (Time_Unix t) 0 /\
   Time_Unix (Experiment_GetLastUpdatedTimestamp e2) = Time_Unix t /\
   Time_Nanosecond (Experiment_GetLastUpdatedTimestamp e2) = 0%Z).
Proof.
  intros e1 e2.
  assert (- 2 ^ 63 <= Time_Unix t < 2 ^ 63)%Z as Hr by apply wrap64_range.
  destruct (Time_Unix_time_Unix _ Hr) as [Hu Hn].
  unfold e1, e2, Experiment_GetCreationTimestamp, Experiment_GetLastUpdatedTimestamp,
    Experiment_SetCreationTimestamp, Experiment_SetLastUpdatedTimestamp. simpl.
  repeat split; done.
Qed.

(** ** Tags.Set on a slice in the store *)

Section TagsClaims.
Context `{Runtime}.

(** C6 (amended): for every Tags sequence that holds at most one Tag
    with key k, Set(k, v1) then Set(k, v2) leaves exactly one Tag with
    key k, and its value is v2. For every Tags sequence, Set replaces
    the value of the first Tag with the key if there is one and else
    appends a new Tag, so a Set adds no Tag with key k when one is
    there already: the number of such Tags afterwards is the number
    before, or 1 when there was none. *)
Theorem Tags_Set_twice (h : Heap) (t : Tags) (k v1 v2 : string)
    (t1 t2 : Tags) (h1 h2 : Heap) :
  wf_slice h t ->
  Tags_Set k v1 t h = (t1, h1) ->
  Tags_Set k v2 t1 h1 = (t2, h2) ->
  (elems h1 t1 = upsert k v1 (elems h t) /\
   elems h2 t2 = upsert k v2 (elems h1 t1) /\
   count_key k (elems h1 t1) = Nat.max 1 (count_key k (elems h t)) /\
   count_key k (elems h2 t2) = count_key k (elems h1 t1) /\
   Tags_Get k t2 h2 = v2) /\
  (count_key k (elems h t) <= 1 ->
   count_key k (elems h2 t2) = 1 /\
   forall tag, tag ∈ elems h2 t2 -> Key tag = k -> Value tag = v2).
Proof.
  intros Hwf E1 E2.
  destruct (Tags_Set_elems _ _ _ _ _ _ Hwf E1) as [L1 Hwf1].
  destruct (Tags_Set_elems _ _ _ _ _ _ Hwf1 E2) as [L2 _].
  assert (count_key k (elems h1 t1) = Nat.max 1 (count_key k (elems h t))) as C1
    by (rewrite L1; apply count_key_upsert).
  assert (count_key k (elems h2 t2) = count_key k (elems h1 t1)) as C2
    by (rewrite L2, count_key_upsert; lia).
  split.
  - repeat split; try done.
    unfold Tags_Get. rewrite L2. apply range_get_upsert.
  - intros Hc. split; [lia|].
    intros tag Hin Hk. rewrite L2 in Hin.
    apply (upsert_value_of_key k v2 (elems h1 t1)); [lia|done|done].
Qed.

(** C9: for every Tags sequence, Set(k, v) leaves every Tag whose key
    differs from k unchanged in key, value and relative order (each
    stays at its index, and the Tags with other keys are the same
    sequence before and after); the length is unchanged when a Tag
    with key k is present, and grows by exactly one, the new Tag at
    the end, when none is. *)
Theorem Tags_Set_frame (h : Heap) (t : Tags) (k v : string)
    (t' : Tags) (h' : Heap) :
  wf_slice h t ->
  Tags_Set k v t h = (t', h') ->
  (forall i tag, elems h t !! i = Some tag -> Key tag <> k ->
                 elems h' t' !! i = Some tag) /\
  others k (elems h' t') = others k (elems h t) /\
  (Tags_Contains k t h = true ->
   Tags_Len t' = Tags_Len t /\ length (elems h' t') = length (elems h t)) /\
  (Tags_Contains k t h = false ->
   Tags_Len t' = S (Tags_Len t) /\
   elems h' t' = elems h t ++ [mkTag k v]).
Proof.
  intros Hwf E.
  destruct (Tags_Set_elems _ _ _ _ _ _ Hwf E) as [L Hwf'].
  pose proof (wf_slice_length _ _ Hwf) as Hl.
  pose proof (wf_slice_length _ _ Hwf') as Hl'.
  unfold Tags_Contains, Tags_Len. rewrite <- Hl, <- Hl', L.
  split; [|split; [|split]].
  - intros i tag. apply upsert_lookup_other.
  - apply others_upsert.
  - intros Hc. apply range_contains_count in Hc.
    rewrite length_upsert. by destruct (decide _).
  - intros Hc. apply range_contains_false in Hc.
    rewrite upsert_absent by done. split; [|done].
    rewrite List.length_app. simpl. lia.
Qed.

(** C7: for every Experiment A, B := A.DeepCopy() is a full duplicate:
    every scalar field of B equals the one of A and the Tags of B hold
    the elements of the Tags of A, one by one, in an array of their
    own; a later B.Tags.Set(k, v) changes the Tags of B and leaves the
    Tags of A as they were (with or without Tags in A), and a Set on
    the Tags of A leaves those of B alone as well. *)
Theorem Experiment_DeepCopy_independent (h : Heap) (A B : Experiment)
    (h1 : Heap) :
  wf_slice h (ETags A) ->
  Experiment_DeepCopy A h = (B, h1) ->
  (ExperimentID B = ExperimentID A /\ Name B = Name A /\
   ArtifactLocation B = ArtifactLocation A /\
   CreationTime B = CreationTime A /\
   LastUpdatedTime B = LastUpdatedTime A /\
   LifecycleStage B = LifecycleStage A) /\
  elems h1 (ETags B) = elems h (ETags A) /\
  Tags_Len (ETags B) = Tags_Len (ETags A) /\
  elems h1 (ETags A) = elems h (ETags A) /\
  ptr (ETags B) <> ptr (ETags A) /\
  (forall k v tB h2,
     Tags_Set k v (ETags B) h1 = (tB, h2) ->
     elems h2 (ETags A) = elems h (ETags A) /\
     elems h2 tB = upsert k v (elems h (ETags A))) /\
  (forall k v tA h2,
     Tags_Set k v (ETags A) h1 = (tA, h2) ->
     elems h2 (ETags B) = elems h (ETags A)).
Proof.
  intros Hwf E. unfold Experiment_DeepCopy in E.
  rewrite Experiment_DeepCopyInto_spec in E by done.
  injection E as <- <-. simpl.
  pose proof (wf_slice_length _ _ Hwf) as Hl.
  assert (forall a, ptr (ETags A) = Some a -> a < length h) as Hal
    by (intros a; by apply wf_slice_allocated).
  assert (elems (h ++ [elems h (ETags A)])
            (mkTags (Some (length h)) (len (ETags A)) (len (ETags A)))
          = elems h (ETags A)) as EB.
  { unfold elems at 1, array_of. simpl.
    rewrite lookup_app_r by lia. replace (length h - length h) with 0 by lia.
    simpl. apply take_ge. lia. }
  assert (elems (h ++ [elems h (ETags A)]) (ETags A) = elems h (ETags A)) as EA.
  { apply elems_frame. intros a Ha. apply lookup_app_l. by apply Hal. }
  assert (Some (length h) <> ptr (ETags A)) as Hne.
  { intros Heq. symmetry in Heq. apply Hal in Heq. lia. }
  split; [done|]. split; [done|]. split; [done|]. split; [done|].
  split; [done|]. split.
  - intros k v tB h2 ES. split.
    + rewrite <- EA. apply elems_frame. intros a Ha.
      apply (Tags_Set_other _ _ _ _ _ _ _ ES).
      * simpl. congruence.
      * rewrite List.length_app. specialize (Hal a Ha). lia.
    + rewrite <- EB. eapply Tags_Set_elems; [|exact ES].
      unfold wf_slice. simpl. rewrite lookup_app_r by lia.
      replace (length h - length h) with 0 by lia. simpl. lia.
  - intros k v tA h2 ES. rewrite <- EB. apply elems_frame. simpl.
    intros a [= <-]. apply (Tags_Set_other _ _ _ _ _ _ _ ES).
    + congruence.
    + rewrite List.length_app. simpl. lia.
Qed.
End TagsClaims.

Lemma Tags_Set_twice_witness :
  let h := [[mkTag "a" "1"]] in
  let t := mkTags (Some 0) 1 1 in
  let t1 := mkTags (Some 1) 2 3 in
  let h1 := [[mkTag "a" "1"]; [mkTag "a" "1"; mkTag "k" "v1"; zeroTag]] in
  let h2 := [[mkTag "a" "1"]; [mkTag "a" "1"; mkTag "k" "v2"; zeroTag]] in
  wf_slice h t /\
  @Tags_Set plain_runtime "k" "v1" t h = (t1, h1) /\
  @Tags_Set plain_runtime "k" "v2" t1 h1 = (t1, h2) /\
  count_key "k" (elems h t) <= 1 /\
  count_key "k" (elems h2 t1) = 1 /\
  (forall tag, tag ∈ elems h2 t1 -> Key tag = "k" -> Value tag = "v2").
Proof.
  intros h t t1 h1 h2.
  assert (wf_slice h t) as W by (vm_compute; lia).
  assert (@Tags_Set plain_runtime "k" "v1" t h = (t1, h1)) as E1 by reflexivity.
  assert (@Tags_Set plain_runtime "k" "v2" t1 h1 = (t1, h2)) as E2 by reflexivity.
  assert (count_key "k" (elems h t) <= 1) as C by (vm_compute; lia).
  split; [exact W|]. split; [exact E1|]. split; [exact E2|]. split; [exact C|].
  exact (proj2 (Tags_Set_twice h t "k" "v1" "v2" t1 t1 h1 h2 W E1 E2) C).
Defined.

(** C6 as stated fails on a sequence that already holds the key twice:
    after the two calls both Tags are still there, the first with the
    new value. *)
Lemma Tags_Set_twice_keeps_duplicates :
  let h := [[mkTag "k" "a"; mkTag "k" "b"]] in
  let t := mkTags (Some 0) 2 2 in
  let r1 := @Tags_Set plain_runtime "k" "v1" t h in
  let r2 := @Tags_Set plain_runtime "k" "v2" r1.1 r1.2 in
  wf_slice h t /\
  elems r2.2 r2.1 = [mkTag "k" "v2"; mkTag "k" "b"] /\
  count_key "k" (elems r2.2 r2.1) = 2 /\
  ~ (count_key "k" (elems r2.2 r2.1) = 1).
Proof.
  intros h t r1 r2.
  split; [vm_compute; lia|]. split; [reflexivity|]. split; [reflexivity|].
  vm_compute. discriminate.
Qed.

Lemma Tags_Set_frame_witness :
  let h := [[mkTag "a" "1"; mkTag "k" "x"; mkTag "b" "2"]] in
  let t := mkTags (Some 0) 3 3 in
  let h' := [[mkTag "a" "1"; mkTag "k" "v"; mkTag "b" "2"]] in
  wf_slice h t /\
  @Tags_Set plain_runtime "k" "v" t h = (t, h') /\
  others "k" (elems h' t) = others "k" (elems h t) /\
  (Tags_Contains "k" t h = true ->
   Tags_Len t = Tags_Len t /\ length (elems h' t) = length (elems h t)).
Proof.
  intros h t h'.
  assert (wf_slice h t) as W by (vm_compute; lia).
  assert (@Tags_Set plain_runtime "k" "v" t h = (t, h')) as E by reflexivity.
  split; [exact W|]. split; [exact E|].
  pose proof (Tags_Set_frame h t "k" "v" t h' W E) as (_ & Ho & Hc & _).
  split; [exact Ho|exact Hc].
Defined.

Lemma Experiment_DeepCopy_independent_witness :
  let h := [[mkTag "team" "ml"; mkTag "env" "dev"]] in
  let A := mkExperiment "7" "default/exp" "s3://bucket" 1 2 "active"
             (mkTags (Some 0) 2 2) in
  let B := mkExperiment "7" "default/exp" "s3://bucket" 1 2 "active"
             (mkTags (Some 1) 2 2) in
  let h1 := h ++ [[mkTag "team" "ml"; mkTag "env" "dev"]] in
  wf_slice h (ETags A) /\
  Experiment_DeepCopy A h = (B, h1) /\
  elems h1 (ETags B) = elems h (ETags A) /\
  forall k v tB h2,
    @Tags_Set plain_runtime k v (ETags B) h1 = (tB, h2) ->
    elems h2 (ETags A) = elems h (ETags A) /\
    elems h2 tB = upsert k v (elems h (ETags A)).
Proof.
  intros h A B h1.
  assert (wf_slice h (ETags A)) as W by (vm_compute; lia).
  assert (Experiment_DeepCopy A h = (B, h1)) as E by reflexivity.
  split; [exact W|]. split; [exact E|].
  pose proof (@Experiment_DeepCopy_independent plain_runtime h A B h1 W E)
    as (_ & HB & _ & _ & _ & Hset & _).
  split; [exact HB|exact Hset].
Defined.

(** ** The client *)

(** Unfolds the monad down to the state it threads. *)
Ltac run :=
  unfold mbind, M_bind, mret, M_ret, fail, panic, get_experiment, get_client,
    get_heap, set_experiment, set_client, set_heap; simpl.

Lemma DeleteOptions_of_InNamespace (i : InNamespace) opts1 opts2 :
  DeleteOptions_of (opts1 ++ DeleteOption_InNamespace i :: opts2)
  = DeleteOptions_of (opts1 ++ opts2).
Proof.
  unfold DeleteOptions_of. by rewrite !foldl_app.
Qed.

Lemma CreateOptions_of_last opts (n : InNamespace) :
  co_Namespace (CreateOptions_of (opts ++ [CreateOption_InNamespace n]))
  = if decide (n = "") then "default" else n.
Proof.
  unfold CreateOptions_of. rewrite foldl_app. simpl.
  repeat case_decide; simpl; congruence.
Qed.

Lemma CreateOptions_of_nonempty opts :
  co_Namespace (CreateOptions_of opts) <> "".
Proof.
  unfold CreateOptions_of. by destruct (decide _).
Qed.

Section ClientClaims.
Context `{Runtime}.

(** C2: for every Experiment value, CreateExperiment with an empty
    Name, GetExperiment with an empty ExperimentID and
    DeleteExperiment with an empty ExperimentID each return their
    validation error with the whole state as it was: no request has
    been handed to the transport, and the caller's Experiment, the
    store and the client are unchanged. *)
Theorem validation_before_network (st : State) :
  (forall opts, Name (experiment st) = "" ->
     CreateExperiment opts st = (Err (ErrMissingAttribute "Name"), st)) /\
  (forall opts, ExperimentID (experiment st) = "" ->
     GetExperiment opts st = (Err ErrExperimentIDMustBeSet, st)) /\
  (forall opts, ExperimentID (experiment st) = "" ->
     DeleteExperiment opts st = (Err ErrExperimentIDMustBeSet, st)).
Proof.
  split; [|split]; intros opts E.
  - unfold CreateExperiment. run. by rewrite decide_True.
  - unfold GetExperiment. run. by rewrite decide_True.
  - unfold DeleteExperiment. run. by rewrite decide_True.
Qed.

(** What DeleteExperiment does once its request has an answer. *)
Lemma DeleteExperiment_answered (opts : list DeleteOption) (st : State)
    (u u' : URL) (transport : Transport) (res : Response) :
  ExperimentID (experiment st) <> "" ->
  url_Parse (URL_String (address (self st))) = Some u ->
  url_Parse (URL_String (delete_url u)) = Some u' ->
  transport = transport_of (self st) ->
  let req := delete_request (self st) u' (ExperimentID (experiment st)) in
  let c' := with_transport transport (self st) in
  transport (sent st) req = Some res ->
  DeleteExperiment opts st =
    if decide (StatusCode res = 200%Z \/
               (StatusCode res = 404%Z /\
                do_IgnoreMissing (DeleteOptions_of opts) = true))
    then (Ok tt,
          mkState (with_Tags (mkTags (Some (length (heap st))) 0 0) Experiment_zero)
            c' (heap st ++ [[]]) (sent st ++ [req]))
    else (match Body res with
          | Some data => Err (ErrUnexpectedStatus (StatusCode res) data)
          | None => Err ErrReadBody
          end,
          mkState (experiment st) c' (heap st) (sent st ++ [req])).
Proof.
  intros Hid Hu Hu' Htr req c' Hres.
  unfold DeleteExperiment, mustCopyURL, http_NewRequest, default_httpClient, Do.
  unfold delete_url, transport_of in *.
  run. rewrite decide_False by done. rewrite Hu. simpl. rewrite Hu'. simpl.
  destruct st as [e [a hc au] hp sn].
  unfold c', req, delete_request in *. simpl in *.
  assert (forall st' : State,
    (if decide (StatusCode res = 200%Z)
     then DeepCopyInto_experiment Experiment_zero
     else if decide (StatusCode res = 404%Z /\
                     do_IgnoreMissing (DeleteOptions_of opts) = true)
     then DeepCopyInto_experiment Experiment_zero
     else fun st =>
       let (r0, st'0) := io_ReadAll (Body res) st in
       match r0 with
       | Ok a1 => (Err (ErrUnexpectedStatus (StatusCode res) a1), st'0)
       | Err e0 => (Err e0, st'0)
       | Panic => (Panic, st'0)
       end) st'
    = if decide (StatusCode res = 200%Z \/
                 (StatusCode res = 404%Z /\
                  do_IgnoreMissing (DeleteOptions_of opts) = true))
      then (Ok tt,
            mkState (with_Tags (mkTags (Some (length (heap st'))) 0 0) Experiment_zero)
              (self st') (heap st' ++ [[]]) (sent st'))
      else (match Body res with
            | Some data => Err (ErrUnexpectedStatus (StatusCode res) data)
            | None => Err ErrReadBody
            end, st')) as Hcases.
  { intros st'. destruct (decide (StatusCode res = 200%Z)) as [E|NE].
    - rewrite decide_True by (by left). done.
    - destruct (decide (StatusCode res = 404%Z /\ _)) as [E2|NE2].
      + rewrite decide_True by (by right). done.
      + rewrite decide_False by (intros [?|?]; done).
        unfold io_ReadAll. destruct (Body res); by destruct st'. }
  destruct hc as [tr|]; simpl in *; subst transport; rewrite Hres;
    rewrite Hcases; done.
Qed.
End ClientClaims.

(** ** strings.TrimPrefix *)

Lemma prefix_app p s : String.prefix p (p +:+ s) = true.
Proof.
  induction p as [|a p IH]; simpl.
  - by destruct s.
  - by destruct (Ascii.ascii_dec a a).
Qed.

Lemma substring_all s : String.substring 0 (String.length s) s = s.
Proof. induction s as [|a s IH]; simpl; [done|]. by rewrite IH. Qed.

Lemma substring_app p s m :
  String.substring (String.length p) m (p +:+ s) = String.substring 0 m s.
Proof. induction p as [|a p IH]; simpl; done. Qed.

Lemma length_string_app p s :
  String.length (p +:+ s) = String.length p + String.length s.
Proof. induction p as [|a p IH]; simpl; [done|]. by rewrite IH. Qed.

Lemma string_app_assoc a b c : (a +:+ b) +:+ c = a +:+ b +:+ c.
Proof.
  induction a as [|x a IH]; [done|].
  change (String x ((a +:+ b) +:+ c) = String x (a +:+ b +:+ c)). by f_equal.
Qed.

Lemma strings_TrimPrefix_app p s : strings_TrimPrefix (p +:+ s) p = s.
Proof.
  unfold strings_TrimPrefix. rewrite prefix_app, substring_app, length_string_app.
  replace (String.length p + String.length s - String.length p)
    with (String.length s) by lia.
  apply substring_all.
Qed.

Lemma range_get_absent k l : range_contains k l = false -> range_get k l = "".
Proof.
  induction l as [|tag l IH]; simpl; [done|].
  by destruct (decide (Key tag = k)).
Qed.

(** ** The trace of requests only grows *)

Lemma extends_ret {A} (a : A) : extends (mret a).
Proof. intros st. exists []. simpl. by rewrite app_nil_r. Qed.

Lemma extends_fail {A} e : extends (@fail A e).
Proof. intros st. exists []. simpl. by rewrite app_nil_r. Qed.

Lemma extends_panic {A} : extends (@panic A).
Proof. intros st. exists []. simpl. by rewrite app_nil_r. Qed.

Lemma extends_bind {A B} (m : M A) (f : A -> M B) :
  extends m -> (forall a, extends (f a)) -> extends (m ≫= f).
Proof.
  intros Hm Hf st. unfold mbind, M_bind.
  destruct (Hm st) as [r1 E1]. destruct (m st) as [[a|e|] st1]; simpl in *.
  - destruct (Hf a st1) as [r2 E2]. exists (r1 ++ r2).
    by rewrite E2, E1, app_assoc.
  - by exists r1.
  - by exists r1.
Qed.

Lemma extends_get_experiment : extends get_experiment.
Proof. intros st. exists []. simpl. by rewrite app_nil_r. Qed.

Lemma extends_get_client : extends get_client.
Proof. intros st. exists []. simpl. by rewrite app_nil_r. Qed.

Lemma extends_get_heap : extends get_heap.
Proof. intros st. exists []. simpl. by rewrite app_nil_r. Qed.

Lemma extends_set_experiment e : extends (set_experiment e).
Proof. intros st. exists []. simpl. by rewrite app_nil_r. Qed.

Lemma extends_set_client c : extends (set_client c).
Proof. intros st. exists []. simpl. by rewrite app_nil_r. Qed.

Lemma extends_set_heap h : extends (set_heap h).
Proof. intros st. exists []. simpl. by rewrite app_nil_r. Qed.

Lemma extends_io_ReadAll body : extends (io_ReadAll body).
Proof. destruct body; [apply extends_ret|apply extends_fail]. Qed.

Lemma silent_ret {A} (a : A) : silent (mret a).
Proof. done. Qed.

Lemma silent_fail {A} e : silent (@fail A e).
Proof. done. Qed.

Lemma silent_panic {A} : silent (@panic A).
Proof. done. Qed.

Lemma silent_bind {A B} (m : M A) (f : A -> M B) :
  silent m -> (forall a, silent (f a)) -> silent (m ≫= f).
Proof.
  intros Hm Hf st. unfold mbind, M_bind.
  specialize (Hm st). destruct (m st) as [[a|e|] st1]; simpl in *; [|done..].
  by rewrite Hf.
Qed.

Lemma silent_get_experiment : silent get_experiment.
Proof. done. Qed.

Lemma silent_get_client : silent get_client.
Proof. done. Qed.

Lemma silent_get_heap : silent get_heap.
Proof. done. Qed.

Lemma silent_set_experiment e : silent (set_experiment e).
Proof. done. Qed.

Lemma silent_set_client c : silent (set_client c).
Proof. done. Qed.

Lemma silent_set_heap h : silent (set_heap h).
Proof. done. Qed.

Lemma silent_io_ReadAll body : silent (io_ReadAll body).
Proof. by destruct body. Qed.

Lemma silent_extends {A} (m : M A) : silent m -> extends m.
Proof. intros Hm st. exists []. by rewrite Hm, app_nil_r. Qed.

Create HintDb trace discriminated.

#[export] Hint Resolve silent_ret silent_fail silent_panic silent_get_experiment
  silent_get_client silent_get_heap silent_set_experiment silent_set_client
  silent_set_heap silent_io_ReadAll : trace.

Ltac silent_step :=
  match goal with
  | |- silent (_ ≫= _) => apply silent_bind; [|intros ?]
  | |- silent (if ?c then _ else _) => destruct c
  | |- silent (match ?c with _ => _ end) => destruct c
  | |- silent (let '(_, _) := ?c in _) => destruct c
  | |- silent _ => solve [auto with trace]
  end.

#[export] Hint Resolve extends_ret extends_fail extends_panic extends_get_experiment
  extends_get_client extends_get_heap extends_set_experiment extends_set_client
  extends_set_heap extends_io_ReadAll : trace.

(** Splits a monadic program along its binds and branches. *)
Ltac trace_step :=
  match goal with
  | |- extends (_ ≫= _) => apply extends_bind; [|intros ?]
  | |- extends (if ?c then _ else _) => destruct c
  | |- extends (match ?c with _ => _ end) => destruct c
  | |- extends (let '(_, _) := ?c in _) => destruct c
  | |- extends _ => solve [auto with trace]
  end.

Section Traces.
Context `{Runtime}.

Lemma extends_mustCopyURL u : extends (mustCopyURL u).
Proof. unfold mustCopyURL. repeat trace_step. Qed.

Lemma extends_http_NewRequest m u b : extends (http_NewRequest m u b).
Proof. unfold http_NewRequest. repeat trace_step. Qed.

Lemma extends_default_httpClient : extends default_httpClient.
Proof. unfold default_httpClient. repeat trace_step. Qed.

Lemma extends_Do req : extends (Do req).
Proof.
  intros st. unfold Do. destruct (httpClient (self st)) as [tr|]; simpl.
  - exists [req]. by destruct (tr (sent st) req).
  - exists []. by rewrite app_nil_r.
Qed.

Lemma extends_decode_created_body body : extends (decode_created_body body).
Proof. unfold decode_created_body. repeat trace_step. Qed.

Lemma extends_decode_experiment_body body :
  extends (decode_experiment_body body).
Proof. unfold decode_experiment_body. repeat trace_step. Qed.

Lemma extends_DeepCopyInto_experiment x : extends (DeepCopyInto_experiment x).
Proof. unfold DeepCopyInto_experiment. repeat trace_step. Qed.

Hint Resolve extends_mustCopyURL extends_http_NewRequest
  extends_default_httpClient extends_Do extends_decode_created_body
  extends_decode_experiment_body extends_DeepCopyInto_experiment : trace.

Lemma silent_mustCopyURL u : silent (mustCopyURL u).
Proof. unfold mustCopyURL. repeat silent_step. Qed.

Lemma silent_http_NewRequest m u b : silent (http_NewRequest m u b).
Proof. unfold http_NewRequest. repeat silent_step. Qed.

Lemma silent_default_httpClient : silent default_httpClient.
Proof. unfold default_httpClient. repeat silent_step. Qed.

Lemma silent_decode_created_body body : silent (decode_created_body body).
Proof. unfold decode_created_body. repeat silent_step. Qed.

Lemma silent_decode_experiment_body body : silent (decode_experiment_body body).
Proof. unfold decode_experiment_body. repeat silent_step. Qed.

Lemma silent_DeepCopyInto_experiment x : silent (DeepCopyInto_experiment x).
Proof. unfold DeepCopyInto_experiment. repeat silent_step. Qed.

Lemma extends_GetExperiment opts : extends (GetExperiment opts).
Proof. unfold GetExperiment. repeat trace_step. Qed.

Lemma extends_DeleteExperiment opts : extends (DeleteExperiment opts).
Proof. unfold DeleteExperiment. repeat trace_step. Qed.

Hint Resolve extends_GetExperiment : trace.

Lemma extends_CreateExperiment opts : extends (CreateExperiment opts).
Proof. unfold CreateExperiment. repeat trace_step. Qed.
End Traces.

#[export] Hint Resolve extends_mustCopyURL extends_http_NewRequest
  extends_default_httpClient extends_Do extends_decode_created_body
  extends_decode_experiment_body extends_DeepCopyInto_experiment
  extends_GetExperiment silent_mustCopyURL silent_http_NewRequest
  silent_default_httpClient silent_decode_created_body
  silent_decode_experiment_body silent_DeepCopyInto_experiment : trace.

(** ** The steps of GetExperiment after the answer *)

Section Decoding.
Context `{Runtime}.

(** The experiment [json] decodes, as it sits in the store. *)
Lemma decode_experiment_body_run (st : State) data d :
  decode_experiment data = Some d ->
  exists out h1,
    decode_experiment_body (Some data) st
    = (Ok out, mkState (experiment st) (self st) h1 (sent st)) /\
    out = mkExperiment (d_ExperimentID d) (d_Name d) (d_ArtifactLocation d)
            (d_CreationTime d) (d_LastUpdatedTime d) (d_LifecycleStage d)
            (ETags out) /\
    wf_slice h1 (ETags out) /\
    elems h1 (ETags out) = default [] (d_Tags d) /\
    length (heap st) <= length h1.
Proof.
  intros Hdec. destruct st as [e c h sn].
  unfold decode_experiment_body, io_ReadAll. run. rewrite Hdec.
  destruct (d_Tags d) as [l|] eqn:El; run.
  - eexists _, _. split; [reflexivity|]. simpl. split; [done|].
    unfold wf_slice, elems, array_of. simpl.
    rewrite lookup_app_r by lia. replace (length h - length h) with 0 by lia.
    simpl. split; [lia|]. split; [by rewrite take_ge by lia|].
    rewrite List.length_app. lia.
  - eexists _, _. split; [reflexivity|]. simpl. split; [done|].
    split; [done|]. split; [done|]. lia.
Qed.

Lemma DeepCopyInto_experiment_run (x : Experiment) (st : State) :
  wf_slice (heap st) (ETags x) ->
  DeepCopyInto_experiment x st
  = (Ok tt,
     mkState
       (with_Tags (mkTags (Some (length (heap st))) (len (ETags x)) (len (ETags x))) x)
       (self st) (heap st ++ [elems (heap st) (ETags x)]) (sent st)).
Proof.
  intros Hwf. destruct st as [e c h sn]. unfold DeepCopyInto_experiment. run.
  simpl in Hwf.
  rewrite (copy_tag_loop h (ETags x) (len (ETags x)) (len (ETags x))) by done.
  rewrite Nat.sub_diag. simpl. rewrite app_nil_r.
  by rewrite take_ge by (rewrite wf_slice_length; done).
Qed.

Lemma Tags_Get_elems k t (h : Heap) : Tags_Get k t h = range_get k (elems h t).
Proof. done. Qed.

Lemma elems_fresh (h : Heap) (l : list Tag) n :
  n = length l -> elems (h ++ [l]) (mkTags (Some (length h)) n n) = l.
Proof.
  intros ->. unfold elems, array_of. simpl.
  rewrite lookup_app_r by lia. replace (length h - length h) with 0 by lia.
  simpl. by rewrite take_ge by lia.
Qed.
End Decoding.


Section ClientOperations.
Context `{Runtime}.

Local Opaque DeepCopyInto_experiment decode_experiment_body Tags_Get
  strings_TrimPrefix elems.

(** C5 (amended): GetExperiment, on an HTTP 200 response whose body
    decodes, deep-copies the decoded experiment into the caller's
    Experiment (the scalar fields, and the tags in an array of their
    own) and then, if the first tag "metadata.namespace" of the result
    has a non-empty value, strips the prefix made of that value and
    "/" from the returned Name; the value comes from the result
    itself, the Namespace option plays no part. When the tag is
    absent, or its value is empty, the Name is left as the server
    returned it. *)
Theorem GetExperiment_strips_namespace (opts : list GetOption) (st : State)
    (u u' : URL) (res : Response) (data : string) (d : DecodedExperiment) :
  ExperimentID (experiment st) <> "" ->
  url_Parse (URL_String (address (self st))) = Some u ->
  url_Parse (URL_String (get_url u (ExperimentID (experiment st)))) = Some u' ->
  transport_of (self st) (sent st) (get_request (self st) u') = Some res ->
  StatusCode res = 200%Z ->
  Body res = Some data ->
  decode_experiment data = Some d ->
  let l := default [] (d_Tags d) in
  let ns := range_get "metadata.namespace" l in
  exists st',
    GetExperiment opts st = (Ok tt, st') /\
    sent st' = sent st ++ [get_request (self st) u'] /\
    (ExperimentID (experiment st') = d_ExperimentID d /\
     ArtifactLocation (experiment st') = d_ArtifactLocation d /\
     CreationTime (experiment st') = d_CreationTime d /\
     LastUpdatedTime (experiment st') = d_LastUpdatedTime d /\
     LifecycleStage (experiment st') = d_LifecycleStage d) /\
    elems (heap st') (ETags (experiment st')) = l /\
    (exists a, ptr (ETags (experiment st')) = Some a /\ length (heap st) <= a) /\
    Tags_Get "metadata.namespace" (ETags (experiment st')) (heap st') = ns /\
    Name (experiment st')
    = (if decide (ns <> "")
       then strings_TrimPrefix (d_Name d) (ns +:+ "/")
       else d_Name d) /\
    (range_contains "metadata.namespace" l = false ->
     Name (experiment st') = d_Name d) /\
    (forall x, ns <> "" -> d_Name d = ns +:+ "/" +:+ x ->
     Name (experiment st') = x).
Proof.
  intros Hid Hu Hu' Hres Hst Hbody Hdec l ns.
  unfold GetExperiment, mustCopyURL, http_NewRequest, default_httpClient, Do.
  unfold get_url, transport_of, get_request in *.
  run. rewrite decide_False by done. rewrite Hu. simpl. rewrite Hu'. simpl.
  destruct st as [e [a hc au] hp sn]. simpl in *.
  destruct hc as [tr|]; simpl in *; rewrite Hres;
    rewrite decide_False by (rewrite Hst; tauto); rewrite Hbody.
  all: match goal with
       | |- context [decode_experiment_body (Some ?dt) ?s] =>
           destruct (decode_experiment_body_run s dt d Hdec)
             as (out & h1 & Erun & Eout & Hwf & Hel & Hlen)
       end.
  all: rewrite Erun, DeepCopyInto_experiment_run by done; simpl in *.
  all: pose proof (wf_slice_length _ _ Hwf) as Hn.
  all: assert (elems (h1 ++ [elems h1 (ETags out)])
                 (mkTags (Some (length h1)) (len (ETags out)) (len (ETags out)))
               = l) as Hcopy by (rewrite elems_fresh; done).
  all: assert (Tags_Get "metadata.namespace"
                 (mkTags (Some (length h1)) (len (ETags out)) (len (ETags out)))
                 (h1 ++ [elems h1 (ETags out)]) = ns) as Hget
         by (rewrite Tags_Get_elems, Hcopy; done).
  all: rewrite Hget; rewrite Eout in *; simpl in *.
  all: destruct (decide (ns <> "")) as [Hns|Hns]; eexists; (split; [reflexivity|]);
    simpl; (split; [done|]); (split; [done|]); (split; [done|]);
    (split; [eexists; split; [reflexivity|lia]|]); (split; [done|]);
    (split; [done|]); split.
  all: try (intros Habs; apply range_get_absent in Habs; fold ns in Habs; done).
  all: try (intros x _ Hx; rewrite Hx, <- string_app_assoc;
            apply strings_TrimPrefix_app).
  all: try done.
Qed.

Lemma bind_Ok {A B} (m : M A) (f : A -> M B) st a st1 :
  m st = (Ok a, st1) -> (m ≫= f) st = f a st1.
Proof. intros E. unfold mbind, M_bind. by rewrite E. Qed.

Lemma bind_Err {A B} (m : M A) (f : A -> M B) st e st1 :
  m st = (Err e, st1) -> (m ≫= f) st = (Err e, st1).
Proof. intros E. unfold mbind, M_bind. by rewrite E. Qed.

Lemma bind_Panic {A B} (m : M A) (f : A -> M B) st st1 :
  m st = (Panic, st1) -> (m ≫= f) st = (Panic, st1).
Proof. intros E. unfold mbind, M_bind. by rewrite E. Qed.

Lemma bind_default_httpClient {B} (f : unit -> M B) (st : State) :
  (default_httpClient ≫= f) st
  = f tt (mkState (experiment st) (with_transport (transport_of (self st)) (self st))
            (heap st) (sent st)).
Proof.
  destruct st as [e [a [tr|] au] hp sn]; by erewrite bind_Ok by reflexivity.
Qed.

Lemma bind_Do {B} (req : Request) (f : Response -> M B) (st : State) tr :
  httpClient (self st) = Some tr ->
  (Do req ≫= f) st
  = let st' := mkState (experiment st) (self st) (heap st) (sent st ++ [req]) in
    match tr (sent st) req with
    | Some res => f res st'
    | None => (Err ErrTransport, st')
    end.
Proof.
  intros E. unfold mbind, M_bind, Do. rewrite E. simpl.
  by destruct (tr (sent st) req).
Qed.

Lemma decode_created_body_run (st : State) data id :
  decode_created data = Some id ->
  decode_created_body (Some data) st = (Ok id, st).
Proof.
  intros E. unfold decode_created_body. simpl.
  erewrite bind_Ok by reflexivity. by rewrite E.
Qed.

(** One step of a run: the first bind, when its left side returns. *)
Ltac step := erewrite bind_Ok by reflexivity; simpl.

Lemma GetExperiment_sent (opts : list GetOption) (st : State) (u u' : URL) :
  ExperimentID (experiment st) <> "" ->
  url_Parse (URL_String (address (self st))) = Some u ->
  url_Parse (URL_String (get_url u (ExperimentID (experiment st)))) = Some u' ->
  sent (GetExperiment opts st).2 = sent st ++ [get_request (self st) u'].
Proof.
  intros Hid Hu Hu'. unfold get_url in Hu'.
  destruct st as [e [a hc au] hp sn]. simpl in *.
  unfold GetExperiment. step. rewrite decide_False by done. step.
  unfold mustCopyURL. rewrite Hu. step.
  unfold http_NewRequest. rewrite Hu'. step.
  rewrite bind_default_httpClient. simpl.
  erewrite bind_Do by reflexivity. simpl. fold (get_request (mkClient a hc au) u').
  destruct (transport_of _ _ _) as [res|]; [|done].
  match goal with
  | |- sent (?m ?s).2 = _ =>
      assert (silent m) as Hs by (repeat silent_step); by rewrite Hs
  end.
Qed.

(** C4: CreateExperiment, on an HTTP 200 answer to the create request
    whose body decodes to an identifier, writes the identifier into
    the caller's experiment.ExperimentID and then returns what a full
    GetExperiment call with the same resolved namespace returns, run
    on the state the create request left; when the identifier is not
    empty and the URL of the get endpoint is well formed this is a
    second request on the wire, after the create POST. *)
Theorem CreateExperiment_then_GetExperiment (opts : list CreateOption)
    (st : State) (u u' : URL) (res : Response) (data id : string) :
  Name (experiment st) <> "" ->
  url_Parse (URL_String (address (self st))) = Some u ->
  url_Parse (URL_String (create_url u)) = Some u' ->
  let o := CreateOptions_of opts in
  let input := create_input o (experiment st) (heap st) in
  let req := create_request (self st) u' input.1 in
  transport_of (self st) (sent st) req = Some res ->
  StatusCode res = 200%Z ->
  Body res = Some data ->
  decode_created data = Some id ->
  let st1 := mkState (with_ExperimentID id (experiment st))
               (with_transport (transport_of (self st)) (self st))
               input.2 (sent st ++ [req]) in
  CreateExperiment opts st
  = GetExperiment [GetOption_InNamespace (co_Namespace o)] st1 /\
  go_Namespace (GetOptions_of [GetOption_InNamespace (co_Namespace o)])
  = co_Namespace o /\
  (forall v', id <> "" ->
     url_Parse (URL_String (get_url u id)) = Some v' ->
     sent (CreateExperiment opts st).2
     = sent st ++ [req; get_request (self st1) v']).
Proof.
  intros Hn Hu Hu' o input req Hres Hst Hbody Hdec st1.
  assert (CreateExperiment opts st
          = GetExperiment [GetOption_InNamespace (co_Namespace o)] st1) as Heq.
  { unfold st1, req, input, create_request, create_url, transport_of in *.
    fold o in Hres |- *.
    destruct st as [e [a hc au] hp sn]. simpl in *.
    unfold CreateExperiment. step. rewrite decide_False by done. step.
    unfold mustCopyURL. rewrite Hu. step. step. fold o.
    destruct (create_input o e hp) as [body h'] eqn:Ein. simpl in *.
    step. unfold http_NewRequest. rewrite Hu'. step.
    rewrite bind_default_httpClient. simpl.
    erewrite bind_Do by reflexivity. simpl.
    unfold transport_of. simpl. rewrite Hres.
    rewrite decide_False by (rewrite Hst; tauto). rewrite Hbody.
    erewrite bind_Ok by (by apply decode_created_body_run).
    step. step. done. }
  split; [exact Heq|]. split.
  - unfold GetOptions_of. simpl.
    rewrite decide_False by apply CreateOptions_of_nonempty. done.
  - intros v' Hid Hv'. rewrite Heq.
    rewrite (GetExperiment_sent _ st1 u v'); [|done|done|done].
    simpl. by rewrite <- app_assoc.
Qed.

(** C3: for every Experiment with a non-empty Name, CreateExperiment
    builds the create request body with name "N/Name", with the
    input's ArtifactLocation, and with the input's tags in which the
    key "metadata.namespace" is upserted to N, where N is the resolved
    namespace: "default" without options, else the last Namespace
    option, an empty one counting as not given. With well-formed URLs
    that body is what the first request on the wire carries. *)
Theorem CreateExperiment_request_body (opts : list CreateOption) (st : State)
    (u u' : URL) :
  Name (experiment st) <> "" ->
  wf_slice (heap st) (ETags (experiment st)) ->
  url_Parse (URL_String (address (self st))) = Some u ->
  url_Parse (URL_String (create_url u)) = Some u' ->
  let e := experiment st in
  let N := co_Namespace (CreateOptions_of opts) in
  let body := CreatePayload (N +:+ "/" +:+ Name e) (ArtifactLocation e)
                (upsert "metadata.namespace" N (elems (heap st) (ETags e))) in
  (create_input (CreateOptions_of opts) e (heap st)).1 = body /\
  (exists rest,
     sent (CreateExperiment opts st).2
     = sent st ++ create_request (self st) u' body :: rest) /\
  (opts = [] -> N = "default") /\
  (forall opts' n, opts = opts' ++ [CreateOption_InNamespace n] ->
     N = if decide (n = "") then "default" else n).
Proof.
  intros Hn Hwf Hu Hu' e N body.
  assert ((create_input (CreateOptions_of opts) e (heap st)).1 = body) as Hin.
  { unfold create_input, body. fold N.
    destruct (Tags_Set "metadata.namespace" N (ETags e) (heap st))
      as [t' h'] eqn:ES. simpl.
    destruct (Tags_Set_elems _ _ _ _ _ _ Hwf ES) as [-> _]. done. }
  split; [exact Hin|]. split; [|split].
  - unfold create_url in *. subst e.
    destruct st as [e [a hc au] hp sn]. simpl in *.
    unfold CreateExperiment. step. rewrite decide_False by done. step.
    unfold mustCopyURL. rewrite Hu. step. step.
    destruct (create_input (CreateOptions_of opts) e hp) as [body' h'] eqn:Ein.
    simpl in Hin. subst body'.
    step. unfold http_NewRequest. rewrite Hu'. step.
    rewrite bind_default_httpClient. simpl.
    erewrite bind_Do by reflexivity. simpl.
    fold (create_request (mkClient a hc au) u' body).
    destruct (transport_of _ _ _) as [res|]; [|by exists []].
    match goal with
    | |- exists rest, sent (?m ?s).2 = _ =>
        assert (extends m) as Hs by (repeat trace_step);
        destruct (Hs s) as [rest Hrest]; exists rest; rewrite Hrest
    end.
    simpl. by rewrite <- app_assoc.
  - intros ->. done.
  - intros opts' n ->. apply CreateOptions_of_last.
Qed.

Lemma DeleteExperiment_sent (opts : list DeleteOption) (st : State) :
  sent (DeleteExperiment opts st).2 = sent st \/
  exists u',
    sent (DeleteExperiment opts st).2
    = sent st ++ [delete_request (self st) u' (ExperimentID (experiment st))].
Proof.
  destruct st as [e [a hc au] hp sn]. simpl.
  unfold DeleteExperiment. step.
  destruct (decide (ExperimentID e = "")); [by left|]. step.
  unfold mustCopyURL.
  destruct (url_Parse (URL_String a)) as [u|];
    [|left; by erewrite bind_Panic by reflexivity].
  step. unfold http_NewRequest.
  destruct (url_Parse _) as [u'|];
    [|left; by erewrite bind_Err by reflexivity].
  step. rewrite bind_default_httpClient. simpl.
  erewrite bind_Do by reflexivity. simpl.
  fold (delete_request (mkClient a hc au) u' (ExperimentID e)).
  right. exists u'.
  destruct (transport_of _ _ _) as [res|]; [|done].
  match goal with
  | |- sent (?m ?s).2 = _ =>
      assert (silent m) as Hs by (repeat silent_step); by rewrite Hs
  end.
Qed.

(** C10: the Namespace option has no effect on DeleteExperiment:
    InNamespace.ApplyToDelete leaves the DeleteOptions unchanged, and
    for every Experiment and every namespace N, DeleteExperiment with
    InNamespace(N) among its options gives the same result and the
    same final state (and so the same requests on the wire and the
    same final Experiment) as without it; the one request it may send
    is built around a body with the experiment_id alone, which is the
    body on the wire when no authenticator rewrites the request. *)
Theorem InNamespace_ignored_by_DeleteExperiment (N : InNamespace) :
  (forall o, InNamespace_ApplyToDelete N o = o) /\
  (forall opts st,
     DeleteExperiment (DeleteOption_InNamespace N :: opts) st
     = DeleteExperiment opts st) /\
  (forall opts1 opts2 st,
     DeleteExperiment (opts1 ++ DeleteOption_InNamespace N :: opts2) st
     = DeleteExperiment (opts1 ++ opts2) st) /\
  (forall opts st,
     sent (DeleteExperiment opts st).2 = sent st \/
     exists u',
       sent (DeleteExperiment opts st).2
       = sent st ++ [delete_request (self st) u' (ExperimentID (experiment st))]) /\
  (forall c u' id,
     delete_request c u' id
     = Header_Set "Accept" "application/json"
         (Header_Set "Content-Type" "application/json"
            (authenticate c (mkRequest MethodPost u' [] (DeletePayload id)))) /\
     ReqBody (delete_request (mkClient (address c) (httpClient c) None) u' id)
     = DeletePayload id).
Proof.
  split; [done|].
  assert (forall opts1 opts2 st,
    DeleteExperiment (opts1 ++ DeleteOption_InNamespace N :: opts2) st
    = DeleteExperiment (opts1 ++ opts2) st) as Hmid.
  { intros opts1 opts2 st. unfold DeleteExperiment.
    by rewrite DeleteOptions_of_InNamespace. }
  split; [intros opts st; apply (Hmid [] opts st)|].
  split; [exact Hmid|]. split; [apply DeleteExperiment_sent|].
  intros c u' id. split; done.
Qed.
End ClientOperations.

(** ** The operations on concrete runs *)

(** C1: DeleteExperiment on an Experiment with ExperimentID "1", answered
    with HTTP 200, or with 404 under IgnoreMissing(true), returns nil and
    resets every scalar field, but the Tags it leaves are the result of
    make(Tags, 0): an allocated, empty slice, not the nil slice of a
    freshly zero-constructed Experiment. The two are not deeply equal,
    which is the comparison the repository's own test makes with
    assert.Equal(t, &Experiment{}, exp0). *)
Theorem DeleteExperiment_reset_is_not_the_zero_value :
  let e := mkExperiment "1" "default/exp" "" 1700000000 1700000001 "active" nilTags in
  let st := mkState e test_client [] [] in
  let ok := @DeleteExperiment (example_runtime None None (always 200 "")) [] st in
  let missing :=
    @DeleteExperiment (example_runtime None None (always 404 "not found"))
      [DeleteOption_IgnoreMissing true] st in
  (ok.1 = Ok tt /\
   experiment ok.2 = with_Tags (mkTags (Some 0) 0 0) Experiment_zero /\
   experiment ok.2 <> Experiment_zero /\
   Experiment_DeepEqual (heap ok.2) (experiment ok.2) Experiment_zero = false) /\
  (missing.1 = Ok tt /\
   experiment missing.2 = with_Tags (mkTags (Some 0) 0 0) Experiment_zero /\
   experiment missing.2 <> Experiment_zero /\
   Experiment_DeepEqual (heap missing.2) (experiment missing.2) Experiment_zero
   = false) /\
  ETags Experiment_zero = nilTags /\
  Experiment_DeepEqual [] Experiment_zero Experiment_zero = true.
Proof.
  vm_compute. repeat split; discriminate.
Qed.

Lemma validation_before_network_witness :
  let st := mkState Experiment_zero test_client [] [] in
  Name (experiment st) = "" /\
  ExperimentID (experiment st) = "" /\
  @CreateExperiment plain_runtime [] st = (Err (ErrMissingAttribute "Name"), st) /\
  @GetExperiment plain_runtime [] st = (Err ErrExperimentIDMustBeSet, st) /\
  @DeleteExperiment plain_runtime [DeleteOption_IgnoreMissing true] st
  = (Err ErrExperimentIDMustBeSet, st).
Proof.
  intros st.
  pose proof (@validation_before_network plain_runtime st) as (Hc & Hg & Hd).
  split; [reflexivity|]. split; [reflexivity|].
  split; [exact (Hc [] eq_refl)|].
  split; [exact (Hg [] eq_refl)|exact (Hd _ eq_refl)].
Defined.

(** C5 as stated fails when the tag is present with an empty value: the
    server returns the name "/exp" with the tag "metadata.namespace" set
    to the empty string; the prefix "/" is not stripped. *)
Lemma GetExperiment_keeps_prefix_of_empty_namespace :
  let d := mkDecoded "1" "/exp" "" 10 20 "active"
             (Some [mkTag "metadata.namespace" ""]) in
  let rt := example_runtime None (Some d) (always 200 "") in
  let st := mkState (with_ExperimentID "1" Experiment_zero) test_client [] [] in
  let r := @GetExperiment rt [] st in
  r.1 = Ok tt /\
  Tags_Contains "metadata.namespace" (ETags (experiment r.2)) (heap r.2) = true /\
  Tags_Get "metadata.namespace" (ETags (experiment r.2)) (heap r.2) = "" /\
  strings_TrimPrefix "/exp" ("" +:+ "/") = "exp" /\
  Name (experiment r.2) = "/exp" /\
  Name (experiment r.2)
  <> strings_TrimPrefix (d_Name d)
       (Tags_Get "metadata.namespace" (ETags (experiment r.2)) (heap r.2) +:+ "/").
Proof.
  vm_compute. repeat split; discriminate.
Qed.

Lemma GetExperiment_strips_namespace_witness :
  let d := mkDecoded "1" "team-a/exp" "s3://bucket" 10 20 "active"
             (Some [mkTag "metadata.namespace" "team-a"]) in
  let rt := example_runtime None (Some d) (always 200 "{}") in
  let st := mkState (with_ExperimentID "1" Experiment_zero) test_client [] [] in
  let u := mkURL "http" "localhost:5000" "" "" in
  let u' := mkURL "http" "localhost:5000"
              "/api/2.0/mlflow/experiments/get?experiment_id=1" "" in
  let res := mkResponse 200 (Some "{}") in
  ExperimentID (experiment st) <> "" /\
  @url_Parse rt (@URL_String rt (address (self st))) = Some u /\
  @url_Parse rt (@URL_String rt (@get_url rt u (ExperimentID (experiment st))))
  = Some u' /\
  @transport_of rt (self st) (sent st) (get_request (self st) u') = Some res /\
  StatusCode res = 200%Z /\
  Body res = Some "{}" /\
  @decode_experiment rt "{}" = Some d /\
  exists st',
    @GetExperiment rt [GetOption_InNamespace "team-b"] st = (Ok tt, st') /\
    Name (experiment st') = "exp" /\
    elems (heap st') (ETags (experiment st')) = [mkTag "metadata.namespace" "team-a"].
Proof.
  intros d rt st u u' res.
  assert (ExperimentID (experiment st) <> "") as H1 by discriminate.
  assert (@url_Parse rt (@URL_String rt (address (self st))) = Some u) as H2
    by reflexivity.
  assert (@url_Parse rt
            (@URL_String rt (@get_url rt u (ExperimentID (experiment st))))
          = Some u') as H3 by reflexivity.
  assert (@transport_of rt (self st) (sent st) (get_request (self st) u')
          = Some res) as H4 by reflexivity.
  assert (StatusCode res = 200%Z) as H5 by reflexivity.
  assert (Body res = Some "{}") as H6 by reflexivity.
  assert (@decode_experiment rt "{}" = Some d) as H7 by reflexivity.
  do 7 (split; [assumption|]).
  destruct (@GetExperiment_strips_namespace rt [GetOption_InNamespace "team-b"]
              st u u' res "{}" d H1 H2 H3 H4 H5 H6 H7)
    as (st' & E & _ & _ & Hel & _ & _ & _ & _ & Hx).
  exists st'. split; [exact E|]. split; [|exact Hel].
  apply Hx; [discriminate|reflexivity].
Defined.

Lemma CreateExperiment_then_GetExperiment_witness :
  let d := mkDecoded "7" "default/exp" "" 10 20 "active"
             (Some [mkTag "metadata.namespace" "default"]) in
  let rt := example_runtime (Some "7") (Some d) (always 200 "{}") in
  let st := mkState (with_Name "exp" Experiment_zero) test_client [] [] in
  let u := mkURL "http" "localhost:5000" "" "" in
  let u' := mkURL "http" "localhost:5000" "/api/2.0/mlflow/experiments/create" "" in
  let v' := mkURL "http" "localhost:5000"
              "/api/2.0/mlflow/experiments/get?experiment_id=7" "" in
  let res := mkResponse 200 (Some "{}") in
  let body := CreatePayload "default/exp" "" [mkTag "metadata.namespace" "default"] in
  let req := create_request test_client u' body in
  let st1 := mkState (mkExperiment "7" "exp" "" 0 0 "" nilTags)
               (with_transport (always 200 "{}") test_client)
               [[mkTag "metadata.namespace" "default"]] [req] in
  Name (experiment st) <> "" /\
  @transport_of rt (self st) (sent st) req = Some res /\
  @decode_created rt "{}" = Some "7" /\
  @CreateExperiment rt [] st = @GetExperiment rt [GetOption_InNamespace "default"] st1 /\
  sent (@CreateExperiment rt [] st).2 = [req; get_request (self st1) v'].
Proof.
  intros d rt st u u' v' res body req st1.
  assert (Name (experiment st) <> "") as H1 by discriminate.
  assert (@transport_of rt (self st) (sent st) req = Some res) as H4 by reflexivity.
  assert (@decode_created rt "{}" = Some "7") as H7 by reflexivity.
  do 3 (split; [assumption|]).
  destruct (@CreateExperiment_then_GetExperiment rt [] st u u' res "{}" "7"
              H1 eq_refl eq_refl H4 eq_refl eq_refl H7) as (E & _ & Hs).
  split; [exact E|]. apply (Hs v'); [discriminate|reflexivity].
Defined.

Lemma CreateExperiment_request_body_witness :
  let rt := example_runtime None None (always 500 "boom") in
  let h := [[mkTag "team" "ml"; mkTag "metadata.namespace" "old"]] in
  let e := mkExperiment "" "exp" "s3://bucket" 0 0 "" (mkTags (Some 0) 2 2) in
  let st := mkState e test_client h [] in
  let u := mkURL "http" "localhost:5000" "" "" in
  let u' := mkURL "http" "localhost:5000" "/api/2.0/mlflow/experiments/create" "" in
  let body := CreatePayload "team-a/exp" "s3://bucket"
                [mkTag "team" "ml"; mkTag "metadata.namespace" "team-a"] in
  Name (experiment st) <> "" /\
  wf_slice (heap st) (ETags (experiment st)) /\
  @url_Parse rt (@URL_String rt (address (self st))) = Some u /\
  @url_Parse rt (@URL_String rt (@create_url rt u)) = Some u' /\
  (@create_input rt (CreateOptions_of [CreateOption_InNamespace "team-a"]) e h).1
  = body /\
  exists rest,
    sent (@CreateExperiment rt [CreateOption_InNamespace "team-a"] st).2
    = create_request test_client u' body :: rest.
Proof.
  intros rt h e st u u' body.
  assert (Name (experiment st) <> "") as H1 by discriminate.
  assert (wf_slice (heap st) (ETags (experiment st))) as H2 by (vm_compute; lia).
  assert (@url_Parse rt (@URL_String rt (address (self st))) = Some u) as H3
    by reflexivity.
  assert (@url_Parse rt (@URL_String rt (@create_url rt u)) = Some u') as H4
    by reflexivity.
  do 4 (split; [assumption|]).
  destruct (@CreateExperiment_request_body rt [CreateOption_InNamespace "team-a"]
              st u u' H1 H2 H3 H4) as (Hb & Hs & _).
  split; [exact Hb|exact Hs].
Defined.

(** * Further properties of the entity *)

(** ** Lookups after Tags.Set *)

Lemma range_get_upsert_other k k' v l :
  k' <> k -> range_get k' (upsert k v l) = range_get k' l.
Proof.
  intros NE. induction l as [|tag l IH]; simpl.
  - by rewrite decide_False by congruence.
  - destruct (decide (Key tag = k)) as [E|NE2]; simpl.
    + by rewrite !decide_False by congruence.
    + destruct (decide (Key tag = k')); [done|apply IH].
Qed.

Lemma range_contains_upsert k v l : range_contains k (upsert k v l) = true.
Proof.
  induction l as [|tag l IH]; simpl.
  - by rewrite decide_True.
  - destruct (decide (Key tag = k)) as [E|NE]; simpl.
    + by rewrite decide_True.
    + by rewrite decide_False.
Qed.

Lemma range_contains_upsert_other k k' v l :
  k' <> k -> range_contains k' (upsert k v l) = range_contains k' l.
Proof.
  intros NE. induction l as [|tag l IH]; simpl.
  - by rewrite decide_False by congruence.
  - destruct (decide (Key tag = k)) as [E|NE2]; simpl.
    + by rewrite !decide_False by congruence.
    + destruct (decide (Key tag = k')); [done|apply IH].
Qed.

Lemma elems_store_at (h : Heap) t i x :
  wf_slice h t -> i < len t ->
  elems (store_at i x t h) t = <[i := x]> (elems h t)
  /\ wf_slice (store_at i x t h) t.
Proof.
  unfold wf_slice, elems, array_of, store_at.
  destruct (ptr t) as [a|]; simpl.
  - destruct (h !! a) as [arr|] eqn:E; [|done]. intros [Hl Hc] Hi.
    rewrite list_lookup_alter_eq, E. simpl.
    rewrite length_insert. split; [|done]. by apply take_insert_lt.
  - intros [-> _] Hi. lia.
Qed.

Section EntityExtras.
Context `{Runtime}.

(** X1: after Set(k, v) on a Tags sequence, Get(k) returns v and
    Contains(k) is true, and for every other key Get and Contains
    answer as they did before the call. *)
Theorem Tags_Get_after_Set (h : Heap) (t : Tags) (k v : string)
    (t' : Tags) (h' : Heap) :
  wf_slice h t ->
  Tags_Set k v t h = (t', h') ->
  Tags_Get k t' h' = v /\
  Tags_Contains k t' h' = true /\
  (forall k', k' <> k ->
     Tags_Get k' t' h' = Tags_Get k' t h /\
     Tags_Contains k' t' h' = Tags_Contains k' t h).
Proof.
  intros Hwf E. destruct (Tags_Set_elems _ _ _ _ _ _ Hwf E) as [L _].
  unfold Tags_Get, Tags_Contains. rewrite L.
  split; [apply range_get_upsert|]. split; [apply range_contains_upsert|].
  intros k' NE. split.
  - by apply range_get_upsert_other.
  - by apply range_contains_upsert_other.
Qed.

(** X2: the namespace accessors agree: after e.SetNamespace(ns),
    e.GetNamespace() returns ns; the scalar fields of e are untouched
    and so are the tags with any other key. *)
Theorem Experiment_GetNamespace_after_SetNamespace (h : Heap) (e e' : Experiment)
    (ns : string) (h' : Heap) :
  wf_slice h (ETags e) ->
  Experiment_SetNamespace ns e h = (e', h') ->
  Experiment_GetNamespace e' h' = ns /\
  with_Tags (ETags e) e' = e /\
  others "metadata.namespace" (elems h' (ETags e'))
  = others "metadata.namespace" (elems h (ETags e)) /\
  wf_slice h' (ETags e').
Proof.
  intros Hwf. unfold Experiment_SetNamespace, on_Tags, Experiment_GetTags.
  destruct (Tags_Set "metadata.namespace" ns (ETags e) h) as [t1 h1] eqn:E.
  intros [= <- <-]. destruct (Tags_Set_elems _ _ _ _ _ _ Hwf E) as [L Hwf'].
  unfold Experiment_GetNamespace, Tags_Get. simpl. rewrite L.
  split; [apply range_get_upsert|]. split; [by destruct e|].
  split; [apply others_upsert|done].
Qed.

(** X3: Get answers the empty string for a key that Contains does not
    find, so a non-empty answer means the key is present; and it
    answers the empty string as well for a key that is present with an
    empty value, as after Set(k, ""): the two cases look the same
    through Get. *)
Theorem Tags_Get_empty_string (h : Heap) (t : Tags) (k : string) :
  (Tags_Contains k t h = false -> Tags_Get k t h = "") /\
  (Tags_Get k t h <> "" -> Tags_Contains k t h = true) /\
  (Tags_Contains k nilTags h = false /\ Tags_Get k nilTags h = "") /\
  (wf_slice h t ->
   Tags_Contains k (Tags_Set k "" t h).1 (Tags_Set k "" t h).2 = true /\
   Tags_Get k (Tags_Set k "" t h).1 (Tags_Set k "" t h).2 = "").
Proof.
  unfold Tags_Contains, Tags_Get.
  split; [apply range_get_absent|]. split.
  - intros Hg. destruct (range_contains k (elems h t)) eqn:Ec; [done|].
    by apply range_get_absent in Ec.
  - split; [done|]. intros Hwf.
    destruct (Tags_Set k "" t h) as [t' h'] eqn:E. simpl.
    destruct (Tags_Set_elems _ _ _ _ _ _ Hwf E) as [-> _].
    split; [apply range_contains_upsert|apply range_get_upsert].
Qed.
End EntityExtras.

(** ** Headers that share an array *)

Lemma wf_slice_store_at (h : Heap) t t' i x :
  wf_slice h t -> wf_slice (store_at i x t' h) t.
Proof.
  unfold wf_slice, store_at. destruct (ptr t) as [a|]; [|done].
  destruct (ptr t') as [b|]; [|done].
  rewrite list_lookup_alter. destruct (decide (b = a)) as [->|NE]; [|done].
  destruct (h !! a) as [arr|]; simpl; [|done]. by rewrite length_insert.
Qed.

Lemma range_contains_find k l :
  range_contains k l = true -> exists i, range_find k 0 l = Some i.
Proof.
  intros Hc. destruct (range_find k 0 l) as [i|] eqn:E; [by exists i|].
  apply range_find_absent in E. by apply range_contains_count in Hc.
Qed.

Lemma range_contains_find_None k l :
  range_contains k l = false -> range_find k 0 l = None.
Proof. intros Hc. apply range_find_absent. by apply range_contains_false. Qed.

Section SharedArrays.
Context `{Runtime}.

(** An append is invisible through the header it started from. *)
Lemma append_keeps_elems (h : Heap) t x t' h' :
  wf_slice h t -> append t x h = (t', h') ->
  elems h' t = elems h t /\ wf_slice h' t.
Proof.
  intros Hwf. unfold append. destruct (decide (len t < cap t)) as [Hlt|Hge].
  - intros [= <- <-]. split; [|by apply wf_slice_store_at].
    revert Hwf. unfold wf_slice, elems, array_of, store_at.
    destruct (ptr t) as [a|]; [|done].
    destruct (h !! a) as [arr|] eqn:E; [|done]. intros _.
    rewrite list_lookup_alter_eq, E. simpl. by rewrite take_insert_ge.
  - intros [= <- <-].
    assert (forall a, ptr t = Some a -> (h ++ [elems h t ++ x ::
              replicate (S (len t) + extra_cap (cap t) (S (len t)) - S (len t)) zeroTag])
              !! a = h !! a) as Hf.
    { intros a Ha. apply lookup_app_l. by apply (wf_slice_allocated h t). }
    split; [by apply elems_frame|by apply (wf_slice_frame h)].
Qed.

(** X4: SetTags copies the slice header, not the tags: after
    B.SetTags(A.GetTags()) the two Experiments work on one array. A
    B.Tags.Set(k, v) for a key A holds changes the value A sees; for a
    key A does not hold, A sees nothing of the new Tag while B does;
    and when the array of A has capacity left, the next
    A.Tags.Set(k2, v2) for a key absent from A overwrites the Tag that
    B had added. *)
Theorem Experiment_SetTags_shares_the_array (h : Heap) (A B : Experiment)
    (k v : string) :
  wf_slice h (ETags A) ->
  let B1 := Experiment_SetTags (Experiment_GetTags A) B in
  let r := on_Tags (Tags_Set k v) B1 h in
  (Tags_Contains k (ETags A) h = true ->
   elems r.2 (ETags A) = upsert k v (elems h (ETags A)) /\
   ETags r.1 = ETags A) /\
  (Tags_Contains k (ETags A) h = false ->
   elems r.2 (ETags A) = elems h (ETags A) /\
   elems r.2 (ETags r.1) = elems h (ETags A) ++ [mkTag k v]) /\
  (Tags_Contains k (ETags A) h = false ->
   len (ETags A) < cap (ETags A) ->
   forall k2 v2,
     Tags_Contains k2 (ETags A) h = false ->
     let r' := on_Tags (Tags_Set k2 v2) A r.2 in
     elems r'.2 (ETags r.1) = elems h (ETags A) ++ [mkTag k2 v2]).
Proof.
  intros Hwf B1 r. unfold r, on_Tags, B1, Experiment_SetTags, Experiment_GetTags.
  simpl. unfold Tags_Contains.
  destruct (Tags_Set k v (ETags A) h) as [t1 h1] eqn:E. simpl.
  destruct (Tags_Set_elems _ _ _ _ _ _ Hwf E) as [L Hwf1].
  split; [|split].
  - intros Hc. apply range_contains_find in Hc as [i Hi].
    unfold Tags_Set in E. rewrite Hi in E. injection E as <- <-. done.
  - intros Hc. pose proof (range_contains_find_None _ _ Hc) as Hn.
    unfold Tags_Set in E. rewrite Hn in E.
    destruct (append_keeps_elems _ _ _ _ _ Hwf E) as [Hk _].
    split; [done|]. rewrite L. apply upsert_absent. by apply range_contains_false.
  - intros Hc Hlt k2 v2 Hc2.
    pose proof (range_contains_find_None _ _ Hc) as Hn.
    unfold Tags_Set in E. rewrite Hn in E.
    destruct (append_keeps_elems _ _ _ _ _ Hwf E) as [Hk Hwf2].
    unfold append in E. rewrite decide_True in E by done. injection E as <- <-.
    destruct (Tags_Set k2 v2 (ETags A) (store_at (len (ETags A)) (mkTag k v) (ETags A) h))
      as [t3 h3] eqn:E3. simpl.
    destruct (Tags_Set_elems _ _ _ _ _ _ Hwf2 E3) as [L3 _].
    unfold Tags_Set in E3. rewrite Hk, (range_contains_find_None _ _ Hc2) in E3.
    unfold append in E3. rewrite decide_True in E3 by done.
    injection E3 as <- <-. rewrite L3, Hk.
    apply upsert_absent. by apply range_contains_false.
Qed.
End SharedArrays.

(** ** The sort interface *)







(** X5: Swap(i, j) with both indices below the length exchanges the
    two Tags in place and leaves every other index alone: the sequence
    afterwards is a permutation of the one before, of the same length,
    and a second Swap(i, j) restores it. With an index at or beyond the
    length it panics. *)
Theorem Tags_Swap_exchanges (h : Heap) (t : Tags) (i j : nat) :
  wf_slice h t ->
  (i < len t -> j < len t ->
   exists a b h',
     elems h t !! i = Some a /\ elems h t !! j = Some b /\
     Tags_Swap i j t h = Some h' /\
     elems h' t !! i = Some b /\ elems h' t !! j = Some a /\
     (forall n, n <> i -> n <> j -> elems h' t !! n = elems h t !! n) /\
     elems h' t ≡ₚ elems h t /\
     length (elems h' t) = length (elems h t) /\
     exists h'', Tags_Swap i j t h' = Some h'' /\ elems h'' t = elems h t) /\
  (len t <= i \/ len t <= j -> Tags_Swap i j t h = None).
Proof.
  intros Hwf. pose proof (wf_slice_length _ _ Hwf) as Hl. split.
  - intros Hi Hj.
    destruct (elems h t !! i) as [a|] eqn:Ea;
      [|apply lookup_ge_None in Ea; lia].
    destruct (elems h t !! j) as [b|] eqn:Eb;
      [|apply lookup_ge_None in Eb; lia].
    destruct (elems_store_at h t i b Hwf Hi) as [L1 Hwf1].
    destruct (elems_store_at _ t j a Hwf1 Hj) as [L2 Hwf2].
    exists a, b, (store_at j a t (store_at i b t h)).
    assert (Tags_Swap i j t h = Some (store_at j a t (store_at i b t h))) as Es
      by (unfold Tags_Swap; by rewrite Ea, Eb).
    rewrite L2, L1.
    assert (<[j:=a]> (<[i:=b]> (elems h t)) !! j = Some a) as Hj'
      by (apply list_lookup_insert_eq; rewrite length_insert; lia).
    assert (<[j:=a]> (<[i:=b]> (elems h t)) !! i = Some b) as Hi'.
    { destruct (decide (i = j)) as [->|NE].
      - rewrite Hj'. congruence.
      - rewrite list_lookup_insert_ne by done.
        apply list_lookup_insert_eq. lia. }
    split; [done|]. split; [done|]. split; [done|]. split; [done|].
    split; [done|]. split.
    { intros n Ni Nj. by rewrite !list_lookup_insert_ne by done. }
    split; [by apply Permutation_insert_swap|].
    split; [by rewrite !length_insert|].
    destruct (elems_store_at _ t i a Hwf2 Hi) as [L3 Hwf3].
    destruct (elems_store_at _ t j b Hwf3 Hj) as [L4 _].
    eexists. split.
    { unfold Tags_Swap. rewrite L2, L1, Hi', Hj'. reflexivity. }
    rewrite L4, L3, L2, L1.
    destruct (decide (i = j)) as [->|NE].
    + rewrite !list_insert_insert_eq. apply list_insert_id. congruence.
    + rewrite (list_insert_insert_ne _ i j a a) by done.
      rewrite (list_insert_insert_eq _ j b a).
      rewrite list_insert_insert_eq.
      rewrite (list_insert_id _ i a) by done. by apply list_insert_id.
  - intros Hge. unfold Tags_Swap.
    destruct Hge as [Hge|Hge].
    + by rewrite (lookup_ge_None_2 (elems h t) i) by lia.
    + rewrite (lookup_ge_None_2 (elems h t) j) by lia.
      by destruct (elems h t !! i).
Qed.


(** ** Reading a stored timestamp and writing it back *)

(** X7: the getters read the stored integer as seconds: for a stored
    value in the int64 range, GetCreationTimestamp().Unix() is the
    stored CreationTime, so SetCreationTimestamp(GetCreationTimestamp())
    leaves the Experiment as it was; the same holds for the
    LastUpdated pair. *)
Theorem timestamp_get_then_set (e : Experiment) :
  (- 2 ^ 63 <= CreationTime e < 2 ^ 63)%Z ->
  (- 2 ^ 63 <= LastUpdatedTime e < 2 ^ 63)%Z ->
  Time_Unix (Experiment_GetCreationTimestamp e) = CreationTime e /\
  Time_Unix (Experiment_GetLastUpdatedTimestamp e) = LastUpdatedTime e /\
  Experiment_SetCreationTimestamp (Experiment_GetCreationTimestamp e) e = e /\
  Experiment_SetLastUpdatedTimestamp (Experiment_GetLastUpdatedTimestamp e) e = e.
Proof.
  intros Hc Hu.
  destruct (Time_Unix_time_Unix _ Hc) as [Ec _].
  destruct (Time_Unix_time_Unix _ Hu) as [Eu _].
  unfold Experiment_SetCreationTimestamp, Experiment_SetLastUpdatedTimestamp,
    Experiment_GetCreationTimestamp, Experiment_GetLastUpdatedTimestamp in *.
  rewrite Ec, Eu. by destruct e.
Qed.

(** * Further properties of the client *)

(** One step of a run: the first bind, when its left side returns. *)
Ltac run_bind := erewrite bind_Ok by reflexivity; simpl.

Section Answers.
Context `{Runtime}.

Lemma decode_experiment_body_exact (st : State) data d :
  decode_experiment data = Some d ->
  decode_experiment_body (Some data) st
  = (Ok (mkExperiment (d_ExperimentID d) (d_Name d) (d_ArtifactLocation d)
           (d_CreationTime d) (d_LastUpdatedTime d) (d_LifecycleStage d)
           (match d_Tags d with
            | Some l => mkTags (Some (length (heap st))) (length l) (length l)
            | None => nilTags
            end)),
     mkState (experiment st) (self st)
       (match d_Tags d with Some l => heap st ++ [l] | None => heap st end)
       (sent st)).
Proof.
  intros Hdec. destruct st as [e c h sn].
  unfold decode_experiment_body, io_ReadAll. run. rewrite Hdec.
  by destruct (d_Tags d).
Qed.

Lemma decode_experiment_body_fails (st : State) data :
  decode_experiment data = None ->
  decode_experiment_body (Some data) st = (Err ErrDecode, st).
Proof.
  intros Hdec. unfold decode_experiment_body, io_ReadAll. run. by rewrite Hdec.
Qed.

Lemma decode_created_body_fails (st : State) data :
  decode_created data = None ->
  decode_created_body (Some data) st = (Err ErrDecode, st).
Proof.
  intros Hdec. unfold decode_created_body, io_ReadAll. run. by rewrite Hdec.
Qed.

Lemma decode_created_body_unread (st : State) :
  decode_created_body None st = (Err ErrReadBody, st).
Proof. done. Qed.

Lemma status_error_run (res : Response) (st : State) :
  (io_ReadAll (Body res) ≫= fun data =>
     @fail unit (ErrUnexpectedStatus (StatusCode res) data)) st
  = (Err (status_error res), st).
Proof. unfold status_error, io_ReadAll. by destruct (Body res). Qed.
End Answers.

Section Outcomes.
Context `{Runtime}.

Local Opaque DeepCopyInto_experiment decode_experiment_body decode_created_body
  Tags_Get strings_TrimPrefix elems.

(** What GetExperiment does with a decoded answer. *)
Lemma GetExperiment_decoded (st : State) data d :
  decode_experiment data = Some d ->
  (decode_experiment_body (Some data) ≫= fun out =>
     DeepCopyInto_experiment out ≫= fun _ =>
     get_experiment ≫= fun e =>
     get_heap ≫= fun h =>
     let namespace := Tags_Get "metadata.namespace" (ETags e) h in
     if decide (namespace <> "") then
       set_experiment
         (with_Name (strings_TrimPrefix (Name e) (namespace +:+ "/")) e)
     else mret tt) st
  = (Ok tt, got d st).
Proof.
  intros Hdec. destruct st as [e c h sn].
  erewrite bind_Ok by (by apply decode_experiment_body_exact). simpl.
  set (l := default [] (d_Tags d)).
  set (h1 := match d_Tags d with Some l0 => h ++ [l0] | None => h end).
  set (t0 := match d_Tags d with
             | Some l0 => mkTags (Some (length h)) (length l0) (length l0)
             | None => nilTags
             end).
  assert (wf_slice h1 t0 /\ elems h1 t0 = l /\ len t0 = length l) as (Hwf & Hel & Hlen).
  { unfold h1, t0, l. destruct (d_Tags d) as [l0|]; simpl.
    - split; [|split; [by apply elems_fresh|done]].
      unfold wf_slice. simpl. rewrite lookup_app_r by lia.
      replace (length h - length h) with 0 by lia. simpl. lia.
    - done. }
  erewrite bind_Ok by (by apply DeepCopyInto_experiment_run). simpl.
  run_bind. run_bind. rewrite Hel, Hlen.
  rewrite Tags_Get_elems, elems_fresh by done.
  unfold got, stripped_name. simpl. fold l.
  assert (match d_Tags d with Some _ => h ++ [l] | None => h end = h1) as ->
    by (unfold h1, l; by destruct (d_Tags d)).
  by destruct (decide (range_get "metadata.namespace" l <> "")).
Qed.

Lemma GetExperiment_outcome (opts : list GetOption) (st : State) (u u' : URL) :
  ExperimentID (experiment st) <> "" ->
  url_Parse (URL_String (address (self st))) = Some u ->
  url_Parse (URL_String (get_url u (ExperimentID (experiment st)))) = Some u' ->
  let req := get_request (self st) u' in
  let st2 := after_send req st in
  GetExperiment opts st
  = match transport_of (self st) (sent st) req with
    | None => (Err ErrTransport, st2)
    | Some res =>
        if decide (StatusCode res = 200%Z) then
          match Body res with
          | None => (Err ErrReadBody, st2)
          | Some data =>
              match decode_experiment data with
              | None => (Err ErrDecode, st2)
              | Some d => (Ok tt, got d st2)
              end
          end
        else (Err (status_error res), st2)
    end.
Proof.
  intros Hid Hu Hu' req st2. unfold get_url in Hu'.
  unfold st2, req, after_send. clear st2 req.
  destruct st as [e [a hc au] hp sn]. simpl in *.
  unfold GetExperiment. run_bind. rewrite decide_False by done. run_bind.
  unfold mustCopyURL. rewrite Hu. run_bind.
  unfold http_NewRequest. rewrite Hu'. run_bind.
  rewrite bind_default_httpClient. simpl.
  erewrite bind_Do by reflexivity. simpl.
  fold (get_request (mkClient a hc au) u').
  unfold with_transport, transport_of. simpl.
  destruct (default DefaultClient hc sn _) as [res|]; [|done].
  destruct (decide (StatusCode res = 200%Z)) as [E|NE].
  - rewrite decide_False by tauto.
    destruct (Body res) as [data|]; [|done].
    destruct (decode_experiment data) as [d|] eqn:Hdec.
    + by apply GetExperiment_decoded.
    + by erewrite bind_Err by (by apply decode_experiment_body_fails).
  - rewrite decide_True by done. apply status_error_run.
Qed.
Lemma GetExperiment_no_address (opts : list GetOption) (st : State) :
  ExperimentID (experiment st) <> "" ->
  url_Parse (URL_String (address (self st))) = None ->
  GetExperiment opts st = (Panic, st).
Proof.
  intros Hid Hu. destruct st as [e [a hc au] hp sn]. simpl in *.
  unfold GetExperiment. run_bind. rewrite decide_False by done. run_bind.
  unfold mustCopyURL. rewrite Hu. by erewrite bind_Panic by reflexivity.
Qed.

Lemma GetExperiment_no_request (opts : list GetOption) (st : State) (u : URL) :
  ExperimentID (experiment st) <> "" ->
  url_Parse (URL_String (address (self st))) = Some u ->
  url_Parse (URL_String (get_url u (ExperimentID (experiment st)))) = None ->
  GetExperiment opts st = (Err ErrNewRequest, st).
Proof.
  intros Hid Hu Hu'. unfold get_url in Hu'.
  destruct st as [e [a hc au] hp sn]. simpl in *.
  unfold GetExperiment. run_bind. rewrite decide_False by done. run_bind.
  unfold mustCopyURL. rewrite Hu. run_bind.
  unfold http_NewRequest. rewrite Hu'. by erewrite bind_Err by reflexivity.
Qed.

(** Every run of GetExperiment: a failure that leaves the Experiment
    and the store alone, or the decoded answer. *)
Lemma GetExperiment_cases (opts : list GetOption) (st : State) :
  (exists r st',
     GetExperiment opts st = (r, st') /\ r <> Ok tt /\
     experiment st' = experiment st /\ heap st' = heap st /\
     (st' = st \/ exists u', st' = after_send (get_request (self st) u') st)) \/
  (exists u' d,
     ExperimentID (experiment st) <> "" /\
     GetExperiment opts st
     = (Ok tt, got d (after_send (get_request (self st) u') st))).
Proof.
  destruct (decide (ExperimentID (experiment st) = "")) as [Hid|Hid].
  { left. exists (Err ErrExperimentIDMustBeSet), st.
    split; [|by auto].
    unfold GetExperiment. run. by rewrite decide_True. }
  destruct (url_Parse (URL_String (address (self st)))) as [u|] eqn:Hu.
  2: { left. exists Panic, st. split; [by apply GetExperiment_no_address|by auto]. }
  destruct (url_Parse (URL_String (get_url u (ExperimentID (experiment st)))))
    as [u'|] eqn:Hu'.
  2: { left. exists (Err ErrNewRequest), st.
       split; [by apply (GetExperiment_no_request _ _ u)|by auto]. }
  rewrite (GetExperiment_outcome opts st u u') by done.
  destruct (transport_of _ _ _) as [res|].
  2: { left. eexists _, _. split; [reflexivity|]. repeat split; eauto. }
  destruct (decide (StatusCode res = 200%Z)).
  2: { left. eexists _, _. split; [reflexivity|]. repeat split; eauto. }
  destruct (Body res) as [data|].
  2: { left. eexists _, _. split; [reflexivity|]. repeat split; eauto. }
  destruct (decode_experiment data) as [d|].
  2: { left. eexists _, _. split; [reflexivity|]. repeat split; eauto. }
  right. by exists u', d.
Qed.

Lemma DeleteExperiment_no_address (opts : list DeleteOption) (st : State) :
  ExperimentID (experiment st) <> "" ->
  url_Parse (URL_String (address (self st))) = None ->
  DeleteExperiment opts st = (Panic, st).
Proof.
  intros Hid Hu. destruct st as [e [a hc au] hp sn]. simpl in *.
  unfold DeleteExperiment. run_bind. rewrite decide_False by done. run_bind.
  unfold mustCopyURL. rewrite Hu. by erewrite bind_Panic by reflexivity.
Qed.

Lemma DeleteExperiment_no_request (opts : list DeleteOption) (st : State) (u : URL) :
  ExperimentID (experiment st) <> "" ->
  url_Parse (URL_String (address (self st))) = Some u ->
  url_Parse (URL_String (delete_url u)) = None ->
  DeleteExperiment opts st = (Err ErrNewRequest, st).
Proof.
  intros Hid Hu Hu'. unfold delete_url in Hu'.
  destruct st as [e [a hc au] hp sn]. simpl in *.
  unfold DeleteExperiment. run_bind. rewrite decide_False by done. run_bind.
  unfold mustCopyURL. rewrite Hu. run_bind.
  unfold http_NewRequest. rewrite Hu'. by erewrite bind_Err by reflexivity.
Qed.

Lemma DeleteExperiment_outcome (opts : list DeleteOption) (st : State) (u u' : URL) :
  ExperimentID (experiment st) <> "" ->
  url_Parse (URL_String (address (self st))) = Some u ->
  url_Parse (URL_String (delete_url u)) = Some u' ->
  let req := delete_request (self st) u' (ExperimentID (experiment st)) in
  let st2 := after_send req st in
  DeleteExperiment opts st
  = match transport_of (self st) (sent st) req with
    | None => (Err ErrTransport, st2)
    | Some res =>
        if decide (StatusCode res = 200%Z \/
                   (StatusCode res = 404%Z /\
                    do_IgnoreMissing (DeleteOptions_of opts) = true))
        then (Ok tt, deleted st2)
        else (Err (status_error res), st2)
    end.
Proof.
  intros Hid Hu Hu' req st2. unfold delete_url in Hu'.
  unfold st2, req, after_send. clear st2 req.
  destruct st as [e [a hc au] hp sn]. simpl in *.
  unfold DeleteExperiment. run_bind. rewrite decide_False by done. run_bind.
  unfold mustCopyURL. rewrite Hu. run_bind.
  unfold http_NewRequest. rewrite Hu'. run_bind.
  rewrite bind_default_httpClient. simpl.
  erewrite bind_Do by reflexivity. simpl.
  fold (delete_request (mkClient a hc au) u' (ExperimentID e)).
  unfold with_transport, transport_of. simpl.
  destruct (default DefaultClient hc sn _) as [res|]; [|done].
  destruct (decide (StatusCode res = 200%Z)) as [E|NE].
  - rewrite decide_True by (by left).
    by rewrite DeepCopyInto_experiment_run.
  - destruct (decide (StatusCode res = 404%Z /\ _)) as [E2|NE2].
    + rewrite decide_True by (by right).
      by rewrite DeepCopyInto_experiment_run.
    + rewrite decide_False by (intros [?|?]; done). apply status_error_run.
Qed.

Lemma CreateExperiment_no_address (opts : list CreateOption) (st : State) :
  Name (experiment st) <> "" ->
  url_Parse (URL_String (address (self st))) = None ->
  CreateExperiment opts st = (Panic, st).
Proof.
  intros Hid Hu. destruct st as [e [a hc au] hp sn]. simpl in *.
  unfold CreateExperiment. run_bind. rewrite decide_False by done. run_bind.
  unfold mustCopyURL. rewrite Hu. by erewrite bind_Panic by reflexivity.
Qed.

Lemma CreateExperiment_no_request (opts : list CreateOption) (st : State) (u : URL) :
  Name (experiment st) <> "" ->
  url_Parse (URL_String (address (self st))) = Some u ->
  url_Parse (URL_String (create_url u)) = None ->
  CreateExperiment opts st
  = (Err ErrNewRequest,
     mkState (experiment st) (self st)
       (create_input (CreateOptions_of opts) (experiment st) (heap st)).2 (sent st)).
Proof.
  intros Hid Hu Hu'. unfold create_url in Hu'.
  destruct st as [e [a hc au] hp sn]. simpl in *.
  unfold CreateExperiment. run_bind. rewrite decide_False by done. run_bind.
  unfold mustCopyURL. rewrite Hu. run_bind. run_bind.
  destruct (create_input (CreateOptions_of opts) e hp) as [body h'] eqn:Ein.
  run_bind. unfold http_NewRequest. rewrite Hu'.
  by erewrite bind_Err by reflexivity.
Qed.

Lemma CreateExperiment_outcome (opts : list CreateOption) (st : State) (u u' : URL) :
  Name (experiment st) <> "" ->
  url_Parse (URL_String (address (self st))) = Some u ->
  url_Parse (URL_String (create_url u)) = Some u' ->
  let o := CreateOptions_of opts in
  let input := create_input o (experiment st) (heap st) in
  let req := create_request (self st) u' input.1 in
  let st2 := after_send req
               (mkState (experiment st) (self st) input.2 (sent st)) in
  CreateExperiment opts st
  = match transport_of (self st) (sent st) req with
    | None => (Err ErrTransport, st2)
    | Some res =>
        if decide (StatusCode res = 200%Z) then
          match Body res with
          | None => (Err ErrReadBody, st2)
          | Some data =>
              match decode_created data with
              | None => (Err ErrDecode, st2)
              | Some id =>
                  GetExperiment [GetOption_InNamespace (co_Namespace o)]
                    (mkState (with_ExperimentID id (experiment st)) (self st2)
                       (heap st2) (sent st2))
              end
          end
        else (Err (status_error res), st2)
    end.
Proof.
  intros Hid Hu Hu' o input req st2. unfold create_url in Hu'.
  unfold st2, req, input, after_send. clear st2 req input.
  destruct st as [e [a hc au] hp sn]. simpl in *.
  unfold CreateExperiment. run_bind. rewrite decide_False by done. run_bind.
  unfold mustCopyURL. rewrite Hu. run_bind. run_bind. fold o.
  destruct (create_input o e hp) as [body h'] eqn:Ein. simpl.
  run_bind. unfold http_NewRequest. rewrite Hu'. run_bind.
  rewrite bind_default_httpClient. simpl.
  erewrite bind_Do by reflexivity. simpl.
  fold (create_request (mkClient a hc au) u' body).
  unfold with_transport, transport_of. simpl.
  destruct (default DefaultClient hc sn _) as [res|]; [|done].
  destruct (decide (StatusCode res = 200%Z)) as [E|NE].
  - rewrite decide_False by tauto.
    destruct (Body res) as [data|];
      [|by erewrite bind_Err by apply decode_created_body_unread].
    destruct (decode_created data) as [id|] eqn:Hdec.
    + erewrite bind_Ok by (by apply decode_created_body_run).
      run_bind. run_bind. done.
    + by erewrite bind_Err by (by apply decode_created_body_fails).
  - rewrite decide_True by done. apply status_error_run.
Qed.
End Outcomes.

(** ** The options *)

Lemma DeleteOptions_fold_Namespace opts o :
  do_Namespace (foldl (fun o f => ApplyToDelete f o) o opts) = do_Namespace o.
Proof.
  revert o. induction opts as [|f opts IH]; intros o; simpl; [done|].
  rewrite IH. by destruct f.
Qed.

Lemma GetOptions_of_last opts (n : InNamespace) :
  go_Namespace (GetOptions_of (opts ++ [GetOption_InNamespace n]))
  = if decide (n = "") then "default" else n.
Proof.
  unfold GetOptions_of. rewrite foldl_app. simpl.
  repeat case_decide; simpl; congruence.
Qed.

(** X8: how the functional options resolve. The namespace of Create and
    Get is never empty: it is "default" without options and the last
    InNamespace otherwise, an empty one giving "default" again.
    IgnoreMissing is false without options and the last IgnoreMissing
    otherwise; InNamespace among the delete options changes neither it
    nor the namespace of the DeleteOptions, which is always "default". *)
Theorem options_resolution :
  (forall opts, co_Namespace (CreateOptions_of opts) <> "") /\
  (forall opts, go_Namespace (GetOptions_of opts) <> "") /\
  (co_Namespace (CreateOptions_of []) = "default" /\
   go_Namespace (GetOptions_of []) = "default" /\
   do_IgnoreMissing (DeleteOptions_of []) = false) /\
  (forall copts gopts n,
     co_Namespace (CreateOptions_of (copts ++ [CreateOption_InNamespace n]))
     = (if decide (n = "") then "default" else n) /\
     go_Namespace (GetOptions_of (gopts ++ [GetOption_InNamespace n]))
     = (if decide (n = "") then "default" else n)) /\
  (forall opts b,
     do_IgnoreMissing (DeleteOptions_of (opts ++ [DeleteOption_IgnoreMissing b])) = b) /\
  (forall opts n,
     do_IgnoreMissing (DeleteOptions_of (opts ++ [DeleteOption_InNamespace n]))
     = do_IgnoreMissing (DeleteOptions_of opts)) /\
  (forall opts, do_Namespace (DeleteOptions_of opts) = "default").
Proof.
  split; [apply CreateOptions_of_nonempty|].
  split; [intros opts; unfold GetOptions_of; by destruct (decide _)|].
  split; [done|].
  split; [intros copts gopts n; split;
          [apply CreateOptions_of_last|apply GetOptions_of_last]|].
  split.
  { intros opts b. unfold DeleteOptions_of. rewrite foldl_app. simpl.
    by destruct (decide _). }
  split.
  { intros opts n. unfold DeleteOptions_of. by rewrite foldl_app. }
  intros opts. unfold DeleteOptions_of.
  by rewrite DeleteOptions_fold_Namespace.
Qed.

Section ClientExtras.
Context `{Runtime}.

Local Opaque DeepCopyInto_experiment decode_experiment_body decode_created_body
  Tags_Get strings_TrimPrefix elems.

(** GetExperiment builds and defaults its GetOptions and never reads
    them again. *)
Lemma GetExperiment_ignores_its_options (opts1 opts2 : list GetOption)
    (st : State) :
  GetExperiment opts1 st = GetExperiment opts2 st.
Proof. reflexivity. Qed.

(** X9: a GetExperiment that does not return nil leaves the caller's
    Experiment and the store of tags exactly as they were, whatever the
    cause: validation, a malformed URL, the transport, the status, the
    body or the decoding. *)
Theorem GetExperiment_failure_is_atomic (opts : list GetOption) (st : State) :
  (GetExperiment opts st).1 <> Ok tt ->
  experiment (GetExperiment opts st).2 = experiment st /\
  heap (GetExperiment opts st).2 = heap st.
Proof.
  destruct (GetExperiment_cases opts st)
    as [(r & st' & -> & Hr & He & Hh & _)|(u' & d & _ & ->)]; simpl; [done|].
  intros Hne. by destruct Hne.
Qed.

(** X10: the error GetExperiment returns once its request is built.
    A transport failure is returned as it is; a status other than 200
    gives the status error carrying the status code and the body text,
    or the read error when the body cannot be read; a 200 whose body
    cannot be read or decoded gives the read or the decode error. In
    all of these the request is on the trace and nothing else changed
    but the defaulted transport. *)
Theorem GetExperiment_error_values (opts : list GetOption) (st : State)
    (u u' : URL) :
  ExperimentID (experiment st) <> "" ->
  url_Parse (URL_String (address (self st))) = Some u ->
  url_Parse (URL_String (get_url u (ExperimentID (experiment st)))) = Some u' ->
  let req := get_request (self st) u' in
  let st2 := after_send req st in
  let answer := transport_of (self st) (sent st) req in
  (answer = None -> GetExperiment opts st = (Err ErrTransport, st2)) /\
  (forall res data,
     answer = Some res -> StatusCode res <> 200%Z -> Body res = Some data ->
     GetExperiment opts st
     = (Err (ErrUnexpectedStatus (StatusCode res) data), st2)) /\
  (forall res,
     answer = Some res -> Body res = None ->
     GetExperiment opts st = (Err ErrReadBody, st2)) /\
  (forall res data,
     answer = Some res -> StatusCode res = 200%Z -> Body res = Some data ->
     decode_experiment data = None ->
     GetExperiment opts st = (Err ErrDecode, st2)) /\
  (experiment st2 = experiment st /\ heap st2 = heap st /\
   sent st2 = sent st ++ [req]).
Proof.
  intros Hid Hu Hu' req st2 answer.
  pose proof (GetExperiment_outcome opts st u u' Hid Hu Hu') as E.
  simpl in E. fold req in E. fold st2 in E. fold answer in E.
  split; [intros Ha; by rewrite E, Ha|].
  split.
  { intros res data Ha Hs Hb. rewrite E, Ha, decide_False by done.
    unfold status_error. by rewrite Hb. }
  split.
  { intros res Ha Hb. rewrite E, Ha. unfold status_error. rewrite Hb.
    by destruct (decide _). }
  split; [|done].
  intros res data Ha Hs Hb Hd. by rewrite E, Ha, decide_True, Hb, Hd by done.
Qed.
(** Every run of DeleteExperiment. *)
Lemma DeleteExperiment_cases (opts : list DeleteOption) (st : State) :
  (exists r st',
     DeleteExperiment opts st = (r, st') /\ r <> Ok tt /\
     (st' = st \/
      exists u', st' = after_send
                   (delete_request (self st) u' (ExperimentID (experiment st))) st)) \/
  (exists u',
     ExperimentID (experiment st) <> "" /\
     DeleteExperiment opts st
     = (Ok tt,
        deleted (after_send
                   (delete_request (self st) u' (ExperimentID (experiment st))) st))).
Proof.
  destruct (decide (ExperimentID (experiment st) = "")) as [Hid|Hid].
  { left. exists (Err ErrExperimentIDMustBeSet), st.
    split; [|by auto].
    unfold DeleteExperiment. run. by rewrite decide_True. }
  destruct (url_Parse (URL_String (address (self st)))) as [u|] eqn:Hu.
  2: { left. exists Panic, st.
       split; [by apply DeleteExperiment_no_address|by auto]. }
  destruct (url_Parse (URL_String (delete_url u))) as [u'|] eqn:Hu'.
  2: { left. exists (Err ErrNewRequest), st.
       split; [by apply (DeleteExperiment_no_request _ _ u)|by auto]. }
  rewrite (DeleteExperiment_outcome opts st u u') by done.
  destruct (transport_of _ _ _) as [res|].
  2: { left. eexists _, _. split; [reflexivity|]. split; eauto. }
  destruct (decide _).
  - right. by exists u'.
  - left. eexists _, _. split; [reflexivity|]. split; eauto.
Qed.

(** X11: what DeleteExperiment returns once its request is built. A
    transport failure is returned as it is. An answer with status 200,
    or with status 404 when IgnoreMissing is true, gives nil and an
    Experiment with zero scalar fields and freshly made, empty Tags.
    Any other answer gives the status error with the code and the body
    text (the read error when the body cannot be read) and leaves the
    Experiment as it was. In every case the one request is on the
    trace. *)
Theorem DeleteExperiment_by_status (opts : list DeleteOption) (st : State)
    (u u' : URL) :
  ExperimentID (experiment st) <> "" ->
  url_Parse (URL_String (address (self st))) = Some u ->
  url_Parse (URL_String (delete_url u)) = Some u' ->
  let req := delete_request (self st) u' (ExperimentID (experiment st)) in
  let st2 := after_send req st in
  let answer := transport_of (self st) (sent st) req in
  let ignore := do_IgnoreMissing (DeleteOptions_of opts) in
  (answer = None -> DeleteExperiment opts st = (Err ErrTransport, st2)) /\
  (forall res, answer = Some res -> StatusCode res = 200%Z ->
     DeleteExperiment opts st = (Ok tt, deleted st2)) /\
  (forall res, answer = Some res -> StatusCode res = 404%Z -> ignore = true ->
     DeleteExperiment opts st = (Ok tt, deleted st2)) /\
  (forall res, answer = Some res -> StatusCode res <> 200%Z ->
     StatusCode res <> 404%Z \/ ignore = false ->
     DeleteExperiment opts st = (Err (status_error res), st2)) /\
  (experiment (deleted st2)
   = with_Tags (mkTags (Some (length (heap st))) 0 0) Experiment_zero /\
   experiment st2 = experiment st /\ heap st2 = heap st /\
   sent st2 = sent st ++ [req] /\ sent (deleted st2) = sent st ++ [req]).
Proof.
  intros Hid Hu Hu' req st2 answer ignore.
  pose proof (DeleteExperiment_outcome opts st u u' Hid Hu Hu') as E.
  simpl in E. fold req in E. fold st2 in E. fold answer in E. fold ignore in E.
  split; [intros Ha; by rewrite E, Ha|].
  split.
  { intros res Ha Hs. rewrite E, Ha. by rewrite decide_True by (by left). }
  split.
  { intros res Ha Hs Hi. rewrite E, Ha. by rewrite decide_True by (by right). }
  split; [|done].
  intros res Ha Hs Hno. rewrite E, Ha. rewrite decide_False; [done|].
  intros [?|[? Hi]]; [done|]. destruct Hno as [?|Hf]; [done|]. congruence.
Qed.

(** X12: a DeleteExperiment that does not return nil leaves the
    caller's Experiment and the store as they were: the reset happens
    on success only. *)
Theorem DeleteExperiment_failure_is_atomic (opts : list DeleteOption) (st : State) :
  (DeleteExperiment opts st).1 <> Ok tt ->
  experiment (DeleteExperiment opts st).2 = experiment st /\
  heap (DeleteExperiment opts st).2 = heap st.
Proof.
  destruct (DeleteExperiment_cases opts st)
    as [(r & st' & -> & Hr & [->|[u' ->]])|(u' & _ & ->)]; simpl; done.
Qed.

(** X13: a DeleteExperiment that returns nil leaves an Experiment with
    an empty ExperimentID and an empty Name, so the same value cannot
    be used again: a further DeleteExperiment or GetExperiment on it,
    also with IgnoreMissing, returns "ExperimentID must be set", and a
    CreateExperiment the missing-Name error, each without a request. *)
Theorem DeleteExperiment_reset_value_is_rejected (opts : list DeleteOption)
    (st : State) :
  (DeleteExperiment opts st).1 = Ok tt ->
  let st' := (DeleteExperiment opts st).2 in
  experiment st'
  = with_Tags (mkTags (Some (length (heap st))) 0 0) Experiment_zero /\
  elems (heap st') (ETags (experiment st')) = [] /\
  (forall dopts, DeleteExperiment dopts st' = (Err ErrExperimentIDMustBeSet, st')) /\
  (forall gopts, GetExperiment gopts st' = (Err ErrExperimentIDMustBeSet, st')) /\
  (forall copts, CreateExperiment copts st' = (Err (ErrMissingAttribute "Name"), st')).
Proof.
  destruct (DeleteExperiment_cases opts st)
    as [(r & st' & -> & Hr & _)|(u' & _ & ->)]; simpl; [done|].
  intros _. split; [done|]. split; [by rewrite elems_fresh|].
  split; [|split]; intros o.
  - unfold DeleteExperiment. by run.
  - unfold GetExperiment. by run.
  - unfold CreateExperiment. by run.
Qed.

(** What the caller sees of a Set made through a copy of its header. *)
Lemma Tags_Set_through_old_header (h : Heap) t k v t' h' :
  wf_slice h t -> Tags_Set k v t h = (t', h') ->
  elems h' t = if range_contains k (elems h t) then upsert k v (elems h t)
               else elems h t.
Proof.
  intros Hwf E. destruct (range_contains k (elems h t)) eqn:Hc.
  - destruct (Tags_Set_elems _ _ _ _ _ _ Hwf E) as [L _].
    apply range_contains_find in Hc as [i Hi].
    unfold Tags_Set in E. rewrite Hi in E. by injection E as <- <-.
  - pose proof (range_contains_find_None _ _ Hc) as Hn.
    unfold Tags_Set in E. rewrite Hn in E.
    by destruct (append_keeps_elems _ _ _ _ _ Hwf E).
Qed.

(** X14: a CreateExperiment whose request is answered with a status
    other than 200 returns the status error with the code and the body
    text, after one request. The fields of the caller's Experiment are
    unchanged, but the tags it shows may not be: Set worked on a copy of
    the header over the same array, so a "metadata.namespace" Tag the
    Experiment already had now carries the resolved namespace; when it
    had none, the caller sees no new Tag. *)
Theorem CreateExperiment_status_error (opts : list CreateOption) (st : State)
    (u u' : URL) (res : Response) (data : string) :
  Name (experiment st) <> "" ->
  wf_slice (heap st) (ETags (experiment st)) ->
  url_Parse (URL_String (address (self st))) = Some u ->
  url_Parse (URL_String (create_url u)) = Some u' ->
  let o := CreateOptions_of opts in
  let input := create_input o (experiment st) (heap st) in
  let req := create_request (self st) u' input.1 in
  transport_of (self st) (sent st) req = Some res ->
  StatusCode res <> 200%Z ->
  Body res = Some data ->
  let r := CreateExperiment opts st in
  r.1 = Err (ErrUnexpectedStatus (StatusCode res) data) /\
  experiment r.2 = experiment st /\
  sent r.2 = sent st ++ [req] /\
  elems (heap r.2) (ETags (experiment st))
  = (if Tags_Contains "metadata.namespace" (ETags (experiment st)) (heap st)
     then upsert "metadata.namespace" (co_Namespace o)
            (elems (heap st) (ETags (experiment st)))
     else elems (heap st) (ETags (experiment st))).
Proof.
  intros Hn Hwf Hu Hu' o input req Hres Hs Hb r.
  unfold r. rewrite (CreateExperiment_outcome opts st u u') by done.
  fold o. fold input. fold req. rewrite Hres, decide_False by done.
  unfold status_error. rewrite Hb. simpl.
  split; [done|]. split; [done|]. split; [done|].
  unfold input, create_input.
  destruct (Tags_Set "metadata.namespace" (co_Namespace o)
              (ETags (experiment st)) (heap st)) as [t' h'] eqn:E.
  simpl. by apply (Tags_Set_through_old_header _ _ _ _ t').
Qed.
(** Every run of CreateExperiment: a failure around its own request, or
    the GetExperiment it ends with. *)
Lemma CreateExperiment_cases (opts : list CreateOption) (st : State) :
  let o := CreateOptions_of opts in
  let input := create_input o (experiment st) (heap st) in
  let st_h := mkState (experiment st) (self st) input.2 (sent st) in
  (exists r st',
     CreateExperiment opts st = (r, st') /\ r <> Ok tt /\
     (st' = st \/ st' = st_h \/
      exists u', st' = after_send (create_request (self st) u' input.1) st_h)) \/
  (exists u' id,
     Name (experiment st) <> "" /\
     let st2 := after_send (create_request (self st) u' input.1) st_h in
     CreateExperiment opts st
     = GetExperiment [GetOption_InNamespace (co_Namespace o)]
         (mkState (with_ExperimentID id (experiment st)) (self st2) (heap st2)
            (sent st2))).
Proof.
  intros o input st_h.
  destruct (decide (Name (experiment st) = "")) as [Hid|Hid].
  { left. exists (Err (ErrMissingAttribute "Name")), st.
    split; [|by auto].
    unfold CreateExperiment. run. by rewrite decide_True. }
  destruct (url_Parse (URL_String (address (self st)))) as [u|] eqn:Hu.
  2: { left. exists Panic, st.
       split; [by apply CreateExperiment_no_address|by auto]. }
  destruct (url_Parse (URL_String (create_url u))) as [u'|] eqn:Hu'.
  2: { left. exists (Err ErrNewRequest), st_h.
       split; [by apply (CreateExperiment_no_request _ _ u)|by auto]. }
  rewrite (CreateExperiment_outcome opts st u u') by done.
  fold o. fold input. fold st_h.
  destruct (transport_of _ _ _) as [res|].
  2: { left. eexists _, _. split; [reflexivity|]. split; eauto. }
  destruct (decide (StatusCode res = 200%Z)).
  2: { left. eexists _, _. split; [reflexivity|]. split; eauto. }
  destruct (Body res) as [data|].
  2: { left. eexists _, _. split; [reflexivity|]. split; eauto. }
  destruct (decode_created data) as [id|].
  2: { left. eexists _, _. split; [reflexivity|]. split; eauto. }
  right. by exists u', id.
Qed.

(** X15: the round trip of a name. When the create request is answered
    with 200 and a non-empty identifier, and the get request that
    follows with 200 and an experiment that carries the name and the
    namespace tag the create request sent, CreateExperiment returns nil
    after the two requests and the caller's Experiment has its own Name
    again, without the namespace prefix, together with the identifier
    and timestamps of the server and the namespace in its tags. *)
Theorem CreateExperiment_returns_the_given_name (opts : list CreateOption)
    (st : State) (u u' v' : URL) (res res2 : Response) (data data2 id : string)
    (d : DecodedExperiment) :
  Name (experiment st) <> "" ->
  url_Parse (URL_String (address (self st))) = Some u ->
  url_Parse (URL_String (create_url u)) = Some u' ->
  let o := CreateOptions_of opts in
  let input := create_input o (experiment st) (heap st) in
  let req := create_request (self st) u' input.1 in
  transport_of (self st) (sent st) req = Some res ->
  StatusCode res = 200%Z -> Body res = Some data ->
  decode_created data = Some id -> id <> "" ->
  url_Parse (URL_String (get_url u id)) = Some v' ->
  let req2 := get_request (self st) v' in
  transport_of (self st) (sent st ++ [req]) req2 = Some res2 ->
  StatusCode res2 = 200%Z -> Body res2 = Some data2 ->
  decode_experiment data2 = Some d ->
  d_Name d = co_Namespace o +:+ "/" +:+ Name (experiment st) ->
  range_get "metadata.namespace" (default [] (d_Tags d)) = co_Namespace o ->
  let r := CreateExperiment opts st in
  r.1 = Ok tt /\
  Name (experiment r.2) = Name (experiment st) /\
  ExperimentID (experiment r.2) = d_ExperimentID d /\
  CreationTime (experiment r.2) = d_CreationTime d /\
  LastUpdatedTime (experiment r.2) = d_LastUpdatedTime d /\
  Experiment_GetNamespace (experiment r.2) (heap r.2) = co_Namespace o /\
  sent r.2 = sent st ++ [req; req2].
Proof.
  intros Hn Hu Hu' o input req Hres Hs Hb Hdec Hid Hv' req2 Hres2 Hs2 Hb2 Hdec2
    Hname Hns r.
  unfold r. rewrite (CreateExperiment_outcome opts st u u') by done.
  fold o. fold input. fold req. rewrite Hres, decide_True, Hb, Hdec by done.
  rewrite (GetExperiment_outcome _ _ u v') by done.
  assert (forall c : client, get_request
            (mkClient (address (self st))
               (Some (default DefaultClient (httpClient (self st))))
               (authenticator (self st))) v' = req2) as Hreq by done.
  unfold after_send, transport_of in *. simpl. rewrite Hreq by exact (self st).
  rewrite Hres2, decide_True, Hb2, Hdec2 by done.
  unfold got, stripped_name. simpl. rewrite Hns, Hname.
  rewrite decide_True by apply CreateOptions_of_nonempty.
  rewrite <- string_app_assoc, strings_TrimPrefix_app.
  split; [done|]. split; [done|]. split; [done|]. split; [done|].
  split; [done|]. split; [|by rewrite <- app_assoc].
  unfold Experiment_GetNamespace. simpl.
  by rewrite Tags_Get_elems, elems_fresh.
Qed.

(** X16: how many requests an operation makes. GetExperiment hands the
    transport no request or exactly one get request; CreateExperiment
    none, its create request, or its create request followed by one get
    request. Earlier entries of the trace are never touched. *)
Theorem requests_on_the_wire (st : State) :
  (forall opts,
     sent (GetExperiment opts st).2 = sent st \/
     exists u', sent (GetExperiment opts st).2
                = sent st ++ [get_request (self st) u']) /\
  (forall opts,
     sent (CreateExperiment opts st).2 = sent st \/
     (exists u' body,
        sent (CreateExperiment opts st).2
        = sent st ++ [create_request (self st) u' body]) \/
     (exists u' body v',
        sent (CreateExperiment opts st).2
        = sent st ++ [create_request (self st) u' body; get_request (self st) v'])).
Proof.
  split; intros opts.
  - destruct (GetExperiment_cases opts st)
      as [(r & st' & -> & _ & _ & _ & [->|[u' ->]])|(u' & d & _ & ->)]; simpl;
      eauto.
  - destruct (CreateExperiment_cases opts st)
      as [(r & st' & -> & _ & [->|[->|[u' ->]]])|(u' & id & _ & ->)]; simpl;
      eauto.
    match goal with
    | |- context [GetExperiment ?o ?s] =>
        destruct (GetExperiment_cases o s)
          as [(r & st' & -> & _ & _ & _ & [->|[v' ->]])|(v' & d & _ & ->)]
    end; simpl; eauto.
    + right. right. eexists _, _, v'. by rewrite <- app_assoc.
    + right. right. eexists _, _, v'. by rewrite <- app_assoc.
Qed.

(** X17: what an operation does to the client. The address and the
    authenticator are never changed, and a transport that is set is
    kept; the only write is the default transport put in place of a nil
    one, once the request is built. *)
Theorem client_configuration_is_kept (st : State) :
  let c' := with_transport (transport_of (self st)) (self st) in
  (address c' = address (self st) /\
   authenticator c' = authenticator (self st) /\
   (forall transport, httpClient (self st) = Some transport -> c' = self st) /\
   (httpClient (self st) = None -> httpClient c' = Some DefaultClient)) /\
  (forall opts, self (GetExperiment opts st).2 = self st \/
                self (GetExperiment opts st).2 = c') /\
  (forall opts, self (DeleteExperiment opts st).2 = self st \/
                self (DeleteExperiment opts st).2 = c') /\
  (forall opts, self (CreateExperiment opts st).2 = self st \/
                self (CreateExperiment opts st).2 = c').
Proof.
  intros c'. split; [|split; [|split]].
  - unfold c', with_transport, transport_of.
    destruct st as [e [a hc au] hp sn]. simpl.
    split; [done|]. split; [done|]. split.
    + by intros tr ->.
    + by intros ->.
  - intros opts. destruct (GetExperiment_cases opts st)
      as [(r & st' & -> & _ & _ & _ & [->|[u' ->]])|(u' & d & _ & ->)]; simpl;
      eauto.
  - intros opts. destruct (DeleteExperiment_cases opts st)
      as [(r & st' & -> & _ & [->|[u' ->]])|(u' & _ & ->)]; simpl; eauto.
  - intros opts. destruct (CreateExperiment_cases opts st)
      as [(r & st' & -> & _ & [->|[->|[u' ->]]])|(u' & id & _ & ->)]; simpl;
      eauto.
    match goal with
    | |- context [GetExperiment ?o ?s] =>
        destruct (GetExperiment_cases o s)
          as [(r & st' & -> & _ & _ & _ & [->|[v' ->]])|(v' & d & _ & ->)]
    end; simpl; eauto.
Qed.

(** X18: a client whose address does not parse again. Each operation,
    once its required field is there, panics in mustCopyURL before any
    request and with the state untouched; in CreateExperiment this is
    before the namespace tag is set. *)
Theorem unparsable_address_panics (st : State) :
  url_Parse (URL_String (address (self st))) = None ->
  (forall opts, ExperimentID (experiment st) <> "" ->
     GetExperiment opts st = (Panic, st)) /\
  (forall opts, ExperimentID (experiment st) <> "" ->
     DeleteExperiment opts st = (Panic, st)) /\
  (forall opts, Name (experiment st) <> "" ->
     CreateExperiment opts st = (Panic, st)).
Proof.
  intros Hu. split; [|split]; intros opts Hv.
  - by apply GetExperiment_no_address.
  - by apply DeleteExperiment_no_address.
  - by apply CreateExperiment_no_address.
Qed.

(** X19: a CreateExperiment that does not return nil changes no field
    of the caller's Experiment but, at most, the ExperimentID: when the
    create request succeeded and the GetExperiment after it failed, the
    decoded identifier stays in the Experiment; the Name, the other
    scalar fields and the Tags header are as they were. *)
Theorem CreateExperiment_failure_keeps_the_fields (opts : list CreateOption)
    (st : State) :
  (CreateExperiment opts st).1 <> Ok tt ->
  experiment (CreateExperiment opts st).2 = experiment st \/
  exists id,
    experiment (CreateExperiment opts st).2 = with_ExperimentID id (experiment st).
Proof.
  destruct (CreateExperiment_cases opts st)
    as [(r & st' & -> & _ & [->|[->|[u' ->]]])|(u' & id & _ & ->)]; simpl;
    eauto.
  match goal with
  | |- context [GetExperiment ?o ?s] =>
      destruct (GetExperiment_cases o s)
        as [(r & st' & -> & _ & He & _ & _)|(v' & d & Hid & ->)]
  end; simpl.
  - intros _. right. exists id. by rewrite He.
  - intros Hne. by destruct Hne.
Qed.
(** X20: a create request answered with 200 and a body that decodes
    to an empty identifier, as the JSON object without fields does:
    CreateExperiment writes the empty identifier into the caller's
    Experiment, over the one it had, and returns the "ExperimentID must
    be set" error of the GetExperiment it calls, after the one create
    request. *)
Theorem CreateExperiment_empty_identifier (opts : list CreateOption)
    (st : State) (u u' : URL) (res : Response) (data : string) :
  Name (experiment st) <> "" ->
  url_Parse (URL_String (address (self st))) = Some u ->
  url_Parse (URL_String (create_url u)) = Some u' ->
  let o := CreateOptions_of opts in
  let input := create_input o (experiment st) (heap st) in
  let req := create_request (self st) u' input.1 in
  transport_of (self st) (sent st) req = Some res ->
  StatusCode res = 200%Z -> Body res = Some data ->
  decode_created data = Some "" ->
  let r := CreateExperiment opts st in
  r.1 = Err ErrExperimentIDMustBeSet /\
  experiment r.2 = with_ExperimentID "" (experiment st) /\
  sent r.2 = sent st ++ [req].
Proof.
  intros Hn Hu Hu' o input req Hres Hs Hb Hdec r.
  unfold r. rewrite (CreateExperiment_outcome opts st u u') by done.
  fold o. fold input. fold req. rewrite Hres, decide_True, Hb, Hdec by done.
  unfold GetExperiment. by run.
Qed.
End ClientExtras.

(** X21: DeepCopy and the comparison of the tests. The copy never has
    nil Tags, so an Experiment with nil Tags and its DeepCopy are not
    deeply equal, while an Experiment whose Tags are allocated, empty
    or not, is deeply equal to its DeepCopy. *)
Theorem Experiment_DeepCopy_DeepEqual (h : Heap) (A B : Experiment) (h1 : Heap) :
  wf_slice h (ETags A) ->
  Experiment_DeepCopy A h = (B, h1) ->
  ptr (ETags B) <> None /\
  Experiment_DeepEqual h1 A B
  = match ptr (ETags A) with Some _ => true | None => false end.
Proof.
  intros Hwf E. unfold Experiment_DeepCopy in E.
  rewrite Experiment_DeepCopyInto_spec in E by done.
  injection E as <- <-. simpl. split; [done|].
  pose proof (wf_slice_length _ _ Hwf) as Hl.
  unfold Experiment_DeepEqual, Tags_DeepEqual. simpl.
  do 6 (rewrite bool_decide_eq_true_2 by done). simpl.
  destruct (ptr (ETags A)) as [a|] eqn:Ea; [|done].
  rewrite bool_decide_eq_true_2 by done. simpl.
  apply orb_true_intro. right. apply bool_decide_eq_true_2.
  rewrite elems_fresh by done.
  apply elems_frame. intros a' Ha'. apply lookup_app_l.
  by apply (wf_slice_allocated h (ETags A)).
Qed.

(** ** The further properties on concrete runs *)

Lemma Tags_Get_after_Set_witness :
  let h := [[mkTag "a" "1"]] in
  let t := mkTags (Some 0) 1 1 in
  let r := @Tags_Set plain_runtime "k" "v" t h in
  wf_slice h t /\
  @Tags_Set plain_runtime "k" "v" t h = (r.1, r.2) /\
  Tags_Get "k" r.1 r.2 = "v" /\
  Tags_Contains "k" r.1 r.2 = true /\
  Tags_Get "a" r.1 r.2 = Tags_Get "a" t h.
Proof.
  intros h t r.
  assert (wf_slice h t) as W by (vm_compute; lia).
  assert (@Tags_Set plain_runtime "k" "v" t h = (r.1, r.2)) as E by reflexivity.
  split; [exact W|]. split; [exact E|].
  destruct (@Tags_Get_after_Set plain_runtime h t "k" "v" r.1 r.2 W E)
    as (Hg & Hc & Ho).
  split; [exact Hg|]. split; [exact Hc|].
  apply (Ho "a"). discriminate.
Defined.

Lemma Experiment_GetNamespace_after_SetNamespace_witness :
  let e := mkExperiment "" "exp" "" 0 0 "" nilTags in
  let r := @Experiment_SetNamespace plain_runtime "team-a" e [] in
  wf_slice [] (ETags e) /\
  @Experiment_SetNamespace plain_runtime "team-a" e [] = (r.1, r.2) /\
  Experiment_GetNamespace r.1 r.2 = "team-a" /\
  with_Tags (ETags e) r.1 = e.
Proof.
  intros e r.
  assert (wf_slice [] (ETags e)) as W by (vm_compute; lia).
  assert (@Experiment_SetNamespace plain_runtime "team-a" e [] = (r.1, r.2)) as E
    by reflexivity.
  split; [exact W|]. split; [exact E|].
  destruct (@Experiment_GetNamespace_after_SetNamespace plain_runtime
              [] e r.1 "team-a" r.2 W E) as (Hg & He & _).
  split; [exact Hg|exact He].
Defined.

Lemma Tags_Get_empty_string_witness :
  let h := [[mkTag "a" "1"]] in
  let t := mkTags (Some 0) 1 1 in
  let r := @Tags_Set plain_runtime "k" "" t h in
  wf_slice h t /\
  Tags_Contains "k" t h = false /\
  Tags_Get "k" t h = "" /\
  Tags_Contains "k" r.1 r.2 = true /\
  Tags_Get "k" r.1 r.2 = "".
Proof.
  intros h t r.
  assert (wf_slice h t) as W by (vm_compute; lia).
  assert (Tags_Contains "k" t h = false) as C by reflexivity.
  destruct (@Tags_Get_empty_string plain_runtime h t "k") as (Ha & _ & _ & Hs).
  split; [exact W|]. split; [exact C|]. split; [exact (Ha C)|exact (Hs W)].
Defined.

Lemma Experiment_SetTags_shares_the_array_witness :
  let h := [[mkTag "a" "1"; zeroTag]] in
  let A := mkExperiment "1" "a" "" 0 0 "" (mkTags (Some 0) 1 2) in
  let B := mkExperiment "2" "b" "" 0 0 "" nilTags in
  let B1 := Experiment_SetTags (Experiment_GetTags A) B in
  let r := on_Tags (@Tags_Set plain_runtime "b" "2") B1 h in
  let r' := on_Tags (@Tags_Set plain_runtime "c" "3") A r.2 in
  wf_slice h (ETags A) /\
  Tags_Contains "b" (ETags A) h = false /\
  len (ETags A) < cap (ETags A) /\
  Tags_Contains "c" (ETags A) h = false /\
  elems r.2 (ETags r.1) = [mkTag "a" "1"; mkTag "b" "2"] /\
  elems r'.2 (ETags r.1) = [mkTag "a" "1"; mkTag "c" "3"].
Proof.
  intros h A B B1 r r'.
  assert (wf_slice h (ETags A)) as W by (vm_compute; lia).
  assert (Tags_Contains "b" (ETags A) h = false) as C1 by reflexivity.
  assert (len (ETags A) < cap (ETags A)) as L by (vm_compute; lia).
  assert (Tags_Contains "c" (ETags A) h = false) as C2 by reflexivity.
  do 4 (split; [assumption|]).
  destruct (@Experiment_SetTags_shares_the_array plain_runtime h A B "b" "2" W)
    as (_ & Hb & Hc).
  split; [exact (proj2 (Hb C1))|exact (Hc C1 L "c" "3" C2)].
Defined.

Lemma Tags_Swap_exchanges_witness :
  let h := [[mkTag "b" "2"; mkTag "a" "1"]] in
  let t := mkTags (Some 0) 2 2 in
  wf_slice h t /\ 0 < len t /\ 1 < len t /\
  exists a b h',
    elems h t !! 0 = Some a /\ elems h t !! 1 = Some b /\
    Tags_Swap 0 1 t h = Some h' /\
    elems h' t !! 0 = Some b /\ elems h' t !! 1 = Some a /\
    elems h' t ≡ₚ elems h t.
Proof.
  intros h t.
  assert (wf_slice h t) as W by (vm_compute; lia).
  assert (0 < len t) as L0 by (vm_compute; lia).
  assert (1 < len t) as L1 by (vm_compute; lia).
  do 3 (split; [assumption|]).
  destruct (proj1 (Tags_Swap_exchanges h t 0 1 W) L0 L1)
    as (a & b & h' & Ha & Hb & Hs & H0 & H1 & _ & Hp & _).
  exists a, b, h'. repeat split; assumption.
Defined.

Lemma timestamp_get_then_set_witness :
  let e := mkExperiment "1" "exp" "" 1700000000 1700000001 "active" nilTags in
  (- 2 ^ 63 <= CreationTime e < 2 ^ 63)%Z /\
  (- 2 ^ 63 <= LastUpdatedTime e < 2 ^ 63)%Z /\
  Time_Unix (Experiment_GetCreationTimestamp e) = 1700000000%Z /\
  Experiment_SetCreationTimestamp (Experiment_GetCreationTimestamp e) e = e.
Proof.
  intros e.
  assert (- 2 ^ 63 <= CreationTime e < 2 ^ 63)%Z as Hc by (simpl; lia).
  assert (- 2 ^ 63 <= LastUpdatedTime e < 2 ^ 63)%Z as Hu by (simpl; lia).
  split; [exact Hc|]. split; [exact Hu|].
  destruct (timestamp_get_then_set e Hc Hu) as (H1 & _ & H3 & _).
  split; [exact H1|exact H3].
Defined.

Lemma Experiment_DeepCopy_DeepEqual_witness :
  let A := mkExperiment "1" "exp" "" 0 0 "active" nilTags in
  let r := Experiment_DeepCopy A [] in
  wf_slice [] (ETags A) /\
  Experiment_DeepCopy A [] = (r.1, r.2) /\
  ptr (ETags r.1) <> None /\
  Experiment_DeepEqual r.2 A r.1 = false.
Proof.
  intros A r.
  assert (wf_slice [] (ETags A)) as W by (vm_compute; lia).
  assert (Experiment_DeepCopy A [] = (r.1, r.2)) as E by reflexivity.
  split; [exact W|]. split; [exact E|].
  exact (Experiment_DeepCopy_DeepEqual [] A r.1 r.2 W E).
Defined.

Lemma GetExperiment_failure_is_atomic_witness :
  let rt := example_runtime None None (always 500 "boom") in
  let e := mkExperiment "1" "kept" "" 3 4 "active" nilTags in
  let st := mkState e test_client [] [] in
  (@GetExperiment rt [] st).1 <> Ok tt /\
  experiment (@GetExperiment rt [] st).2 = e /\
  heap (@GetExperiment rt [] st).2 = [].
Proof.
  intros rt e st.
  assert ((@GetExperiment rt [] st).1 <> Ok tt) as Hf by (vm_compute; discriminate).
  split; [exact Hf|].
  exact (@GetExperiment_failure_is_atomic rt [] st Hf).
Defined.

Lemma GetExperiment_error_values_witness :
  let rt := example_runtime None None (always 500 "boom") in
  let st := mkState (with_ExperimentID "1" Experiment_zero) test_client [] [] in
  let u := mkURL "http" "localhost:5000" "" "" in
  let u' := mkURL "http" "localhost:5000"
              "/api/2.0/mlflow/experiments/get?experiment_id=1" "" in
  let res := mkResponse 500 (Some "boom") in
  ExperimentID (experiment st) <> "" /\
  @url_Parse rt (@URL_String rt (address (self st))) = Some u /\
  @url_Parse rt (@URL_String rt (@get_url rt u (ExperimentID (experiment st))))
  = Some u' /\
  @transport_of rt (self st) (sent st) (get_request (self st) u') = Some res /\
  @GetExperiment rt [] st
  = (Err (ErrUnexpectedStatus 500 "boom"),
     @after_send rt (get_request (self st) u') st).
Proof.
  intros rt st u u' res.
  assert (ExperimentID (experiment st) <> "") as H1 by discriminate.
  assert (@url_Parse rt (@URL_String rt (address (self st))) = Some u) as H2
    by reflexivity.
  assert (@url_Parse rt
            (@URL_String rt (@get_url rt u (ExperimentID (experiment st))))
          = Some u') as H3 by reflexivity.
  assert (@transport_of rt (self st) (sent st) (get_request (self st) u')
          = Some res) as H4 by reflexivity.
  do 4 (split; [assumption|]).
  destruct (@GetExperiment_error_values rt [] st u u' H1 H2 H3) as (_ & Hs & _).
  apply (Hs res "boom" H4); [discriminate|reflexivity].
Defined.

Lemma DeleteExperiment_by_status_witness :
  let rt := example_runtime None None (always 404 "gone") in
  let st := mkState (with_ExperimentID "1" Experiment_zero) test_client [] [] in
  let u := mkURL "http" "localhost:5000" "" "" in
  let u' := mkURL "http" "localhost:5000" "/api/2.0/mlflow/experiments/delete" "" in
  let res := mkResponse 404 (Some "gone") in
  let req := delete_request test_client u' "1" in
  ExperimentID (experiment st) <> "" /\
  @url_Parse rt (@URL_String rt (address (self st))) = Some u /\
  @url_Parse rt (@URL_String rt (@delete_url rt u)) = Some u' /\
  @transport_of rt (self st) (sent st) req = Some res /\
  @DeleteExperiment rt [] st
  = (Err (ErrUnexpectedStatus 404 "gone"), @after_send rt req st) /\
  @DeleteExperiment rt [DeleteOption_IgnoreMissing true] st
  = (Ok tt, deleted (@after_send rt req st)).
Proof.
  intros rt st u u' res req.
  assert (ExperimentID (experiment st) <> "") as H1 by discriminate.
  assert (@url_Parse rt (@URL_String rt (address (self st))) = Some u) as H2
    by reflexivity.
  assert (@url_Parse rt (@URL_String rt (@delete_url rt u)) = Some u') as H3
    by reflexivity.
  assert (@transport_of rt (self st) (sent st) req = Some res) as H4 by reflexivity.
  do 4 (split; [assumption|]).
  split.
  - destruct (@DeleteExperiment_by_status rt [] st u u' H1 H2 H3)
      as (_ & _ & _ & He & _).
    apply (He res H4); [discriminate|by right].
  - destruct (@DeleteExperiment_by_status rt [DeleteOption_IgnoreMissing true]
                st u u' H1 H2 H3) as (_ & _ & Hi & _).
    apply (Hi res H4); reflexivity.
Defined.

Lemma DeleteExperiment_failure_is_atomic_witness :
  let rt := example_runtime None None (always 404 "gone") in
  let e := mkExperiment "1" "kept" "" 3 4 "active" nilTags in
  let st := mkState e test_client [] [] in
  (@DeleteExperiment rt [] st).1 <> Ok tt /\
  experiment (@DeleteExperiment rt [] st).2 = e /\
  heap (@DeleteExperiment rt [] st).2 = [].
Proof.
  intros rt e st.
  assert ((@DeleteExperiment rt [] st).1 <> Ok tt) as Hf
    by (vm_compute; discriminate).
  split; [exact Hf|].
  exact (@DeleteExperiment_failure_is_atomic rt [] st Hf).
Defined.

Lemma DeleteExperiment_reset_value_is_rejected_witness :
  let rt := example_runtime None None (always 200 "") in
  let e := mkExperiment "1" "exp" "" 3 4 "active" nilTags in
  let st := mkState e test_client [] [] in
  let st' := (@DeleteExperiment rt [] st).2 in
  (@DeleteExperiment rt [] st).1 = Ok tt /\
  @DeleteExperiment rt [DeleteOption_IgnoreMissing true] st'
  = (Err ErrExperimentIDMustBeSet, st') /\
  sent st' = [delete_request test_client
                (mkURL "http" "localhost:5000" "/api/2.0/mlflow/experiments/delete" "")
                "1"].
Proof.
  intros rt e st st'.
  assert ((@DeleteExperiment rt [] st).1 = Ok tt) as Hs by reflexivity.
  split; [exact Hs|].
  destruct (@DeleteExperiment_reset_value_is_rejected rt [] st Hs)
    as (_ & _ & Hd & _).
  split; [exact (Hd [DeleteOption_IgnoreMissing true])|reflexivity].
Defined.

Lemma CreateExperiment_status_error_witness :
  let rt := example_runtime None None (always 409 "exists") in
  let h := [[mkTag "team" "ml"; mkTag "metadata.namespace" "old"]] in
  let e := mkExperiment "" "exp" "" 0 0 "" (mkTags (Some 0) 2 2) in
  let st := mkState e test_client h [] in
  let u := mkURL "http" "localhost:5000" "" "" in
  let u' := mkURL "http" "localhost:5000" "/api/2.0/mlflow/experiments/create" "" in
  let res := mkResponse 409 (Some "exists") in
  let r := @CreateExperiment rt [CreateOption_InNamespace "team-a"] st in
  Name (experiment st) <> "" /\
  wf_slice (heap st) (ETags (experiment st)) /\
  StatusCode res <> 200%Z /\
  r.1 = Err (ErrUnexpectedStatus 409 "exists") /\
  experiment r.2 = e /\
  elems (heap r.2) (ETags e)
  = [mkTag "team" "ml"; mkTag "metadata.namespace" "team-a"].
Proof.
  intros rt h e st u u' res r.
  assert (Name (experiment st) <> "") as H1 by discriminate.
  assert (wf_slice (heap st) (ETags (experiment st))) as H2 by (vm_compute; lia).
  assert (StatusCode res <> 200%Z) as H5 by discriminate.
  do 3 (split; [assumption|]).
  destruct (@CreateExperiment_status_error rt [CreateOption_InNamespace "team-a"]
              st u u' res "exists" H1 H2 eq_refl eq_refl eq_refl H5 eq_refl)
    as (Hr & He & _ & Ht).
  split; [exact Hr|]. split; [exact He|exact Ht].
Defined.

Lemma CreateExperiment_returns_the_given_name_witness :
  let d := mkDecoded "7" "team-a/exp" "s3://bucket" 10 20 "active"
             (Some [mkTag "metadata.namespace" "team-a"]) in
  let rt := example_runtime (Some "7") (Some d) (always 200 "{}") in
  let st := mkState (with_Name "exp" Experiment_zero) test_client [] [] in
  let u := mkURL "http" "localhost:5000" "" "" in
  let u' := mkURL "http" "localhost:5000" "/api/2.0/mlflow/experiments/create" "" in
  let v' := mkURL "http" "localhost:5000"
              "/api/2.0/mlflow/experiments/get?experiment_id=7" "" in
  let res := mkResponse 200 (Some "{}") in
  let opts := [CreateOption_InNamespace "team-a"] in
  let r := @CreateExperiment rt opts st in
  Name (experiment st) <> "" /\
  @decode_created rt "{}" = Some "7" /\
  @decode_experiment rt "{}" = Some d /\
  d_Name d = co_Namespace (CreateOptions_of opts) +:+ "/" +:+ Name (experiment st) /\
  r.1 = Ok tt /\
  Name (experiment r.2) = "exp" /\
  ExperimentID (experiment r.2) = "7" /\
  Experiment_GetNamespace (experiment r.2) (heap r.2) = "team-a".
Proof.
  intros d rt st u u' v' res opts r.
  assert (Name (experiment st) <> "") as H1 by discriminate.
  assert (@decode_created rt "{}" = Some "7") as H2 by reflexivity.
  assert (@decode_experiment rt "{}" = Some d) as H3 by reflexivity.
  assert (d_Name d
          = co_Namespace (CreateOptions_of opts) +:+ "/" +:+ Name (experiment st))
    as H4 by reflexivity.
  assert ("7" <> "") as H5 by discriminate.
  do 4 (split; [assumption|]).
  destruct (@CreateExperiment_returns_the_given_name rt opts st u u' v' res res
              "{}" "{}" "7" d H1 eq_refl eq_refl eq_refl eq_refl eq_refl H2 H5
              eq_refl eq_refl eq_refl eq_refl H3 H4 eq_refl)
    as (Hr & Hn & Hi & _ & _ & Hg & _).
  split; [exact Hr|]. split; [exact Hn|]. split; [exact Hi|exact Hg].
Defined.

Lemma unparsable_address_panics_witness :
  let st := mkState (mkExperiment "1" "exp" "" 0 0 "" nilTags) test_client [] [] in
  @url_Parse unparsable_runtime (@URL_String unparsable_runtime (address (self st)))
  = None /\
  @GetExperiment unparsable_runtime [] st = (Panic, st) /\
  @DeleteExperiment unparsable_runtime [] st = (Panic, st) /\
  @CreateExperiment unparsable_runtime [] st = (Panic, st).
Proof.
  intros st.
  assert (@url_Parse unparsable_runtime
            (@URL_String unparsable_runtime (address (self st))) = None) as Hu
    by reflexivity.
  split; [exact Hu|].
  destruct (@unparsable_address_panics unparsable_runtime st Hu) as (Hg & Hd & Hc).
  split; [apply Hg; discriminate|]. split; [apply Hd|apply Hc]; discriminate.
Defined.

Lemma CreateExperiment_failure_keeps_the_fields_witness :
  let d := mkDecoded "7" "default/exp" "" 10 20 "active" None in
  let rt := example_runtime (Some "7") (Some d)
              (fun history _ =>
                 match history with
                 | [] => Some (mkResponse 200 (Some "{}"))
                 | _ => Some (mkResponse 500 (Some "boom"))
                 end) in
  let e := mkExperiment "" "exp" "s3://bucket" 0 0 "" nilTags in
  let st := mkState e test_client [] [] in
  (@CreateExperiment rt [] st).1 <> Ok tt /\
  (@CreateExperiment rt [] st).1 = Err (ErrUnexpectedStatus 500 "boom") /\
  experiment (@CreateExperiment rt [] st).2 = with_ExperimentID "7" e /\
  (experiment (@CreateExperiment rt [] st).2 = experiment st \/
   exists id,
     experiment (@CreateExperiment rt [] st).2 = with_ExperimentID id (experiment st)).
Proof.
  intros d rt e st.
  assert ((@CreateExperiment rt [] st).1 <> Ok tt) as Hf
    by (vm_compute; discriminate).
  split; [exact Hf|]. split; [reflexivity|]. split; [reflexivity|].
  exact (@CreateExperiment_failure_keeps_the_fields rt [] st Hf).
Defined.

Lemma CreateExperiment_empty_identifier_witness :
  let rt := example_runtime (Some "") None (always 200 "{}") in
  let e := mkExperiment "old" "exp" "" 0 0 "" nilTags in
  let st := mkState e test_client [] [] in
  let u := mkURL "http" "localhost:5000" "" "" in
  let u' := mkURL "http" "localhost:5000" "/api/2.0/mlflow/experiments/create" "" in
  let res := mkResponse 200 (Some "{}") in
  let r := @CreateExperiment rt [] st in
  Name (experiment st) <> "" /\
  @decode_created rt "{}" = Some "" /\
  r.1 = Err ErrExperimentIDMustBeSet /\
  ExperimentID (experiment r.2) = "" /\
  length (sent r.2) = 1.
Proof.
  intros rt e st u u' res r.
  assert (Name (experiment st) <> "") as H1 by discriminate.
  assert (@decode_created rt "{}" = Some "") as H2 by reflexivity.
  do 2 (split; [assumption|]).
  destruct (@CreateExperiment_empty_identifier rt [] st u u' res "{}"
              H1 eq_refl eq_refl eq_refl eq_refl eq_refl H2) as (Hr & He & Hs).
  split; [exact Hr|]. unfold r. split; [by rewrite He|by rewrite Hs].
Defined.
